(** * The postgres-best-practices build pipeline: validate, build, extract

    A shallow embedding of the three pipeline modules of
    [packages/postgres-best-practices-build/src]:
    - [validate.ts]      ([Module Validate]),
    - [build.ts]         ([Module Build]),
    - [extract-tests.ts] ([Module ExtractTests]),
    together with the constants of [config.ts] ([Module Config]).

    The parser ([parser.ts]) and the type declarations ([types.ts]) are not
    part of the sources at hand: the parser is a parameter of the development
    and the records below follow the fields the three modules read and write. *)

From Stdlib Require Import String Ascii List Bool Arith ZArith Lia.
From Stdlib Require Import Sorting.Permutation Sorting.Sorted.
From Stdlib Require Import DecimalString DecimalNat OrderedTypeEx.
Import ListNotations.

Open Scope list_scope.
Open Scope string_scope.
Open Scope nat_scope.

(** ** The JavaScript string operations the pipeline calls

    Strings are Rocq strings (sequences of 8-bit characters).  The case
    mapping and the white-space class are those of the ASCII range, which is
    where the keywords, markers and patterns of the pipeline live. *)
Module JS.

(** [!s] on a string: the empty string is the only falsy one. *)
Definition falsy (s : string) : bool := (s =? "")%string.

(** [!o] on an optional string field: [undefined] and [""] are falsy. *)
Definition falsyOpt (o : option string) : bool :=
  match o with
  | None => true
  | Some s => falsy s
  end.

(** [o || dflt] on an optional string field. *)
Definition orElse (o : option string) (dflt : string) : string :=
  match o with
  | None => dflt
  | Some s => if falsy s then dflt else s
  end.

Definition isUpper (c : ascii) : bool :=
  (65 <=? nat_of_ascii c) && (nat_of_ascii c <=? 90).

Definition isLower (c : ascii) : bool :=
  (97 <=? nat_of_ascii c) && (nat_of_ascii c <=? 122).

Definition isDigit (c : ascii) : bool :=
  (48 <=? nat_of_ascii c) && (nat_of_ascii c <=? 57).

(** The class [\s]: tab, line feed, vertical tab, form feed, carriage
    return and space. *)
Definition isSpace (c : ascii) : bool :=
  let n := nat_of_ascii c in
  ((9 <=? n) && (n <=? 13)) || (n =? 32).

(** The class [\w]: letters, digits and underscore. *)
Definition isWord (c : ascii) : bool :=
  isUpper c || isLower c || isDigit c || (nat_of_ascii c =? 95).

Definition lowerChar (c : ascii) : ascii :=
  if isUpper c then ascii_of_nat (nat_of_ascii c + 32) else c.

(** [s.toLowerCase()] *)
Fixpoint toLowerCase (s : string) : string :=
  match s with
  | EmptyString => EmptyString
  | String c s' => String (lowerChar c) (toLowerCase s')
  end.

(** [s.startsWith(p)] *)
Definition startsWith (s p : string) : bool := String.prefix p s.

(** [s.includes(t)]: [t] occurs at some position of [s]. *)
Fixpoint includes (s t : string) : bool :=
  String.prefix t s ||
  match s with
  | EmptyString => false
  | String _ s' => includes s' t
  end.

(** [s.endsWith(t)]: [t] occurs at position [s.length - t.length]. *)
Definition endsWith (s t : string) : bool :=
  (String.length t <=? String.length s) &&
  (substring (String.length s - String.length t) (String.length t) s =? t)%string.

(** [s.trimStart()] *)
Fixpoint trimStart (s : string) : string :=
  match s with
  | EmptyString => EmptyString
  | String c s' => if isSpace c then trimStart s' else s
  end.

(** [s.trimEnd()]: a character is dropped when it is white space and
    everything after it has been dropped. *)
Fixpoint trimEnd (s : string) : string :=
  match s with
  | EmptyString => EmptyString
  | String c s' =>
      match trimEnd s' with
      | EmptyString => if isSpace c then EmptyString else String c EmptyString
      | t => String c t
      end
  end.

(** [s.trim()] *)
Definition trim (s : string) : string := trimEnd (trimStart s).

(** [`${n}`] for a non-negative integer. *)
Definition ofNat (n : nat) : string := NilEmpty.string_of_uint (Nat.to_uint n).

(** [xs.join(sep)] *)
Definition join (sep : string) (xs : list string) : string := String.concat sep xs.

(** [xs.some(p)] *)
Definition some {A : Type} (p : A -> bool) (xs : list A) : bool := existsb p xs.

(** A JavaScript [Map] with insertion order: [get] returns the value of
    the key, [set] replaces the value of a present key in place and appends
    an absent one. *)
Section JsMap.
Context {V : Type}.

Definition map := list (nat * V).

Fixpoint get (m : map) (k : nat) : option V :=
  match m with
  | [] => None
  | (k', v) :: m' => if k' =? k then Some v else get m' k
  end.

Fixpoint set (m : map) (k : nat) (v : V) : map :=
  match m with
  | [] => [(k, v)]
  | (k', v') :: m' => if k' =? k then (k', v) :: m' else (k', v') :: set m' k v
  end.
End JsMap.

Arguments map : clear implicits.

End JS.

(** ** [config.ts] *)
Module Config.

(** [IMPACT_LEVELS]: the valid impact levels in priority order. *)
Definition IMPACT_LEVELS : list string :=
  ["CRITICAL"; "HIGH"; "MEDIUM-HIGH"; "MEDIUM"; "LOW-MEDIUM"; "LOW"].

(** [IMPACT_LEVELS.includes(x)] *)
Definition isImpactLevel (x : string) : bool :=
  existsb (String.eqb x) IMPACT_LEVELS.

(** [SECTION_MAP]: section prefix to number mapping. *)
Definition SECTION_MAP : list (string * nat) :=
  [ ("query", 1); ("conn", 2); ("connection", 2); ("schema", 3); ("lock", 4);
    ("security", 5); ("data", 6); ("monitor", 7); ("advanced", 8) ].

(** [SECTION_MAP[prefix]], [None] for [undefined]. *)
Definition sectionOfPrefix (prefix : string) : option nat :=
  option_map snd (find (fun e => (fst e =? prefix)%string) SECTION_MAP).

End Config.

(** ** The records of [types.ts], as the three modules use them *)

(** Modelled from the spec: [types.ts] is not among the sources; an example
    has the fields of the data model (section 3), the optional ones as
    options. *)
Record CodeExample := mkExample {
  label : string;
  description : option string;
  code : string;
  language : option string;
  additionalText : option string
}.

(** Modelled from the spec: [types.ts] is not among the sources; a rule has
    the fields of the data model (section 3), with [id] unset until the
    builder assigns it. *)
Record Rule := mkRule {
  id : option string;
  title : string;
  section : nat;
  impact : string;
  impactDescription : option string;
  explanation : string;
  examples : list CodeExample;
  supabaseNotes : option string;
  references : list string
}.

(** [rule.id = v] *)
Definition setId (r : Rule) (v : string) : Rule :=
  mkRule (Some v) (title r) (section r) (impact r) (impactDescription r)
         (explanation r) (examples r) (supabaseNotes r) (references r).

(** Modelled from the spec: [parser.ts] and [types.ts] are not among the
    sources; [parseRuleFile] returns success, an optional rule, errors and
    warnings (section 4.1). *)
Record ParseResult := mkParseResult {
  success : bool;
  rule : option Rule;
  parseErrors : list string;
  parseWarnings : list string
}.

(** What [validateRuleFile] returns. *)
Record ValidationResult := mkValidationResult {
  valid : bool;
  errors : list string;
  warnings : list string
}.

(** A section, with the fields [parseSections] fills. *)
Record Section_ := mkSection {
  number : nat;
  sectionTitle : string;
  prefix : string;
  sectionImpact : string;
  sectionDescription : string
}.

(** The metadata, with the fields [loadMetadata] fills. *)
Record Metadata := mkMetadata {
  version : string;
  organization : string;
  date : string;
  abstract : string;
  metaReferences : list string
}.

(** The [type] of a test case. *)
Inductive CaseType := bad | good.

(** A test case, with the fields [extractTestCases] fills. *)
Record TestCase := mkTestCase {
  ruleId : string;
  ruleTitle : string;
  type : CaseType;
  tcCode : string;
  tcLanguage : string;
  tcDescription : string
}.

(** ** Paths ([path.join], [path.basename]) on the names [readdirSync] returns *)
Module Path.

(** [join(dir, f)] for a directory entry [f]. *)
Definition join (dir f : string) : string := dir ++ "/" ++ f.

(** [basename(p)]: the text after the last slash. *)
Fixpoint basename (p : string) : string :=
  match p with
  | EmptyString => EmptyString
  | String c p' =>
      if JS.includes p' "/" then basename p'
      else if Ascii.eqb c "/" then p' else p
  end.

End Path.

(** ** [validate.ts] *)
Module Validate.

(** Check if an example label indicates a bad pattern. *)
Definition isBadExample (label : string) : bool :=
  let lower := JS.toLowerCase label in
  JS.includes lower "incorrect" || JS.includes lower "wrong" || JS.includes lower "bad".

(** Check if an example label indicates a good pattern. *)
Definition isGoodExample (label : string) : bool :=
  let lower := JS.toLowerCase label in
  JS.includes lower "correct" ||
  JS.includes lower "good" ||
  JS.includes lower "usage" ||
  JS.includes lower "implementation" ||
  JS.includes lower "example" ||
  JS.includes lower "recommended".

(** The two arrays [errors] and [warnings] that [validateRuleFile] fills. *)
Record Diag := mkDiag {
  errs : list string;
  warns : list string
}.

(** [errors.push(msg)] *)
Definition pushError (msg : string) (d : Diag) : Diag :=
  mkDiag (errs d ++ [msg])%list (warns d).

(** [warnings.push(msg)] *)
Definition pushWarning (msg : string) (d : Diag) : Diag :=
  mkDiag (errs d) (warns d ++ [msg])%list.

(** The character [34], which delimits the label in a message. *)
Definition dquote : string := String (ascii_of_nat 34) EmptyString.

Definition msgMissingTitle := "Missing or empty title".
Definition msgMissingExplanation := "Missing or empty explanation".
Definition msgShortExplanation := "Explanation is shorter than 50 characters".
Definition msgMissingExamples :=
  "Missing examples (need at least one bad and one good example)".
Definition msgMissingBadGood := "Missing bad/incorrect and good/correct examples".
Definition msgMissingBad := "Missing bad/incorrect example (recommended for clarity)".
Definition msgMissingGood := "Missing good/correct example".
Definition msgNoCode := "Examples have no code".
Definition msgMissingLanguage (label : string) : string :=
  "Example " ++ dquote ++ label ++ dquote ++ " missing language specification".
Definition msgInvalidImpact (impact : string) : string :=
  "Invalid impact level: " ++ impact ++ ". Must be one of: "
    ++ JS.join ", " Config.IMPACT_LEVELS.
Definition msgMissingImpactDescription :=
  "Missing impactDescription (recommended for quantifying benefit)".

(** Validate title *)
Definition validateTitle (rule : Rule) (d : Diag) : Diag :=
  if JS.falsy (title rule) || (String.length (JS.trim (title rule)) =? 0)
  then pushError msgMissingTitle d
  else d.

(** Validate explanation *)
Definition validateExplanation (rule : Rule) (d : Diag) : Diag :=
  if JS.falsy (explanation rule) || (String.length (JS.trim (explanation rule)) =? 0)
  then pushError msgMissingExplanation d
  else if String.length (explanation rule) <? 50
  then pushWarning msgShortExplanation d
  else d.

(** The bad/good branch of the examples check. *)
Definition validateBadGood (hasBad hasGood : bool) (d : Diag) : Diag :=
  if negb hasBad && negb hasGood then pushError msgMissingBadGood d
  else if negb hasBad then pushWarning msgMissingBad d
  else if negb hasGood then pushError msgMissingGood d
  else d.

(** [e.code && e.code.trim().length > 0] *)
Definition exampleHasCode (e : CodeExample) : bool :=
  negb (JS.falsy (code e)) && (0 <? String.length (JS.trim (code e))).

(** Check for language specification: one step of the loop. *)
Definition validateLanguage (d : Diag) (example : CodeExample) : Diag :=
  if negb (JS.falsy (code example)) && JS.falsyOpt (language example)
  then pushWarning (msgMissingLanguage (label example)) d
  else d.

(** Check for code in examples *)
Definition validateCode (rule : Rule) (d : Diag) : Diag :=
  let hasCode := JS.some exampleHasCode (examples rule) in
  if negb hasCode then pushError msgNoCode d else d.

(** Validate examples *)
Definition validateExamples (rule : Rule) (d : Diag) : Diag :=
  if List.length (examples rule) =? 0 then pushError msgMissingExamples d
  else
    let hasBad := JS.some (fun e => isBadExample (label e)) (examples rule) in
    let hasGood := JS.some (fun e => isGoodExample (label e)) (examples rule) in
    let d := validateBadGood hasBad hasGood d in
    let d := validateCode rule d in
    fold_left validateLanguage (examples rule) d.

(** Validate impact level *)
Definition validateImpact (rule : Rule) (d : Diag) : Diag :=
  if negb (Config.isImpactLevel (impact rule))
  then pushError (msgInvalidImpact (impact rule)) d
  else d.

(** Warning for missing impact description *)
Definition validateImpactDescription (rule : Rule) (d : Diag) : Diag :=
  if JS.falsyOpt (impactDescription rule)
  then pushWarning msgMissingImpactDescription d
  else d.

(** The checks of [validateRuleFile] on a parsed rule, in source order. *)
Definition validateRule (rule : Rule) (d : Diag) : Diag :=
  let d := validateTitle rule d in
  let d := validateExplanation rule d in
  let d := validateExamples rule d in
  let d := validateImpact rule d in
  validateImpactDescription rule d.

Section WithParser.

(** [parseRuleFile] of [parser.ts], which reads and parses one file. *)
Variable parseRuleFile : string -> ParseResult.

(** [RULES_DIR] of [config.ts]. *)
Variable RULES_DIR : string.

(** Validate a single rule file *)
Definition validateRuleFile (filePath : string) : ValidationResult :=
  let result := parseRuleFile filePath in
  let d := mkDiag ([] ++ parseErrors result)%list ([] ++ parseWarnings result)%list in
  match success result, rule result with
  | true, Some rule =>
      let d := validateRule rule d in
      mkValidationResult (List.length (errs d) =? 0) (errs d) (warns d)
  | _, _ => mkValidationResult false (errs d) (warns d)
  end.

(** Get all markdown files (excluding _ prefixed files) *)
Definition ruleFiles (listing : list string) : list string :=
  List.map (Path.join RULES_DIR)
    (List.filter (fun f => JS.endsWith f ".md" && negb (JS.startsWith f "_")) listing).

Record Summary := mkSummary {
  totalFiles : nat;
  validFiles : nat;
  invalidFiles : nat;
  results : list (string * ValidationResult)
}.

(** [results.set(key, v)] on a [Map] with string keys. *)
Fixpoint setResult (m : list (string * ValidationResult)) (k : string)
    (v : ValidationResult) : list (string * ValidationResult) :=
  match m with
  | [] => [(k, v)]
  | (k', v') :: m' =>
      if (k' =? k)%string then (k', v) :: m' else (k', v') :: setResult m' k v
  end.

(** One turn of the loop of [validateAllRules]. *)
Definition validateStep (acc : Summary) (file : string) : Summary :=
  let result := validateRuleFile file in
  let results' := setResult (results acc) (Path.basename file) result in
  if valid result
  then mkSummary (totalFiles acc) (S (validFiles acc)) (invalidFiles acc) results'
  else mkSummary (totalFiles acc) (validFiles acc) (S (invalidFiles acc)) results'.

(** Validate all rule files in the rules directory; [listing] is what
    [readdirSync(RULES_DIR)] returns. *)
Definition validateAllRules (listing : list string) : Summary :=
  let files := ruleFiles listing in
  fold_left validateStep files (mkSummary (List.length files) 0 0 []).

End WithParser.

End Validate.

(** ** [extract-tests.ts] *)
Module ExtractTests.

(** Check if an example label indicates a bad pattern. *)
Definition isBadExample (label : string) : bool :=
  let lower := JS.toLowerCase label in
  JS.includes lower "incorrect" || JS.includes lower "wrong" || JS.includes lower "bad".

(** Check if an example label indicates a good pattern. *)
Definition isGoodExample (label : string) : bool :=
  let lower := JS.toLowerCase label in
  JS.includes lower "correct" ||
  JS.includes lower "good" ||
  JS.includes lower "usage" ||
  JS.includes lower "implementation" ||
  JS.includes lower "example" ||
  JS.includes lower "recommended".

(** The variable [type] after the [if / else if] on the label. *)
Definition classify (label : string) : option CaseType :=
  if isBadExample label then Some bad
  else if isGoodExample label then Some good
  else None.

(** The body of the loop over [rule.examples]. *)
Definition extractExample (ruleId : string) (rule : Rule)
    (testCases : list TestCase) (example : CodeExample) : list TestCase :=
  if JS.falsy (code example) || (String.length (JS.trim (code example)) =? 0)
  then testCases
  else
    match classify (label example) with
    | Some type =>
        (testCases ++
         [mkTestCase ruleId (title rule) type (code example)
            (JS.orElse (language example) "sql")
            (JS.orElse (description example)
               (label example ++ " example for " ++ title rule))])%list
    | None => testCases
    end.

(** The two variables the loop over the files updates. *)
Record State := mkState {
  testCases : list TestCase;
  ruleCountBySection : JS.map nat
}.

(** [ruleCountBySection.get(s) || 0] *)
Definition countOf (m : JS.map nat) (s : nat) : nat :=
  match JS.get m s with
  | Some n => n
  | None => 0
  end.

Section WithParser.

Variable parseRuleFile : string -> ParseResult.
Variable RULES_DIR : string.

(** Get all rule files *)
Definition ruleFiles (listing : list string) : list string :=
  List.map (Path.join RULES_DIR)
    (List.filter (fun f => JS.endsWith f ".md" && negb (JS.startsWith f "_")) listing).

(** The body of the loop over [ruleFiles]. *)
Definition extractFile (st : State) (file : string) : State :=
  let validation := Validate.validateRuleFile parseRuleFile file in
  if negb (valid validation) then st
  else
    let result := parseRuleFile file in
    match success result, rule result with
    | true, Some rule =>
        let sectionCount := countOf (ruleCountBySection st) (section rule) + 1 in
        let counts := JS.set (ruleCountBySection st) (section rule) sectionCount in
        let ruleId := JS.ofNat (section rule) ++ "." ++ JS.ofNat sectionCount in
        mkState (fold_left (extractExample ruleId rule) (examples rule) (testCases st))
                counts
    | _, _ => st
    end.

(** Extract test cases from all rule files *)
Definition extractTestCases (listing : list string) : list TestCase :=
  testCases (fold_left extractFile (ruleFiles listing) (mkState [] [])).

End WithParser.

End ExtractTests.

(** ** Regular expressions, as far as [build.ts] uses them

    A backtracking matcher for the constructs of the section pattern:
    literals, greedy repetitions of a character class, sequences, capture
    groups and an optional non-capturing group.  A match is tried with a
    continuation for the rest of the pattern, so that a greedy repetition
    gives characters back when what follows it fails.  The capture groups of
    the pattern are not nested, so they close in the order they open. *)
Module RegExp.

Inductive re :=
| Lit (s : string)              (* the characters of [s] *)
| Plus (c : ascii -> bool)      (* [c+] *)
| Star (c : ascii -> bool)      (* [c*] *)
| Seq (r1 r2 : re)              (* [r1 r2] *)
| Cap (r : re)                  (* [(r)] *)
| Opt (r : re).                 (* [(?:r)?] *)

(** The rest of [s] after the literal [t], when [s] starts with it. *)
Fixpoint dropLit (t s : string) : option string :=
  match t, s with
  | EmptyString, _ => Some s
  | String a t', String b s' => if Ascii.eqb a b then dropLit t' s' else None
  | String _ _, EmptyString => None
  end.

Section Matcher.
Context {R : Type}.

(** Greedy [c*] followed by [k]: the longest run is tried first. *)
Fixpoint star (c : ascii -> bool) (s : string) (k : string -> option R) : option R :=
  match s with
  | String a s' =>
      if c a then
        match star c s' k with
        | Some x => Some x
        | None => k s
        end
      else k s
  | EmptyString => k s
  end.

(** [matchRe r s caps k]: match [r] at the start of [s], then go on with
    [k] on the rest and the captures made so far. *)
Fixpoint matchRe (r : re) (s : string) (caps : list string)
    (k : string -> list string -> option R) : option R :=
  match r with
  | Lit t =>
      match dropLit t s with
      | Some rest => k rest caps
      | None => None
      end
  | Star c => star c s (fun rest => k rest caps)
  | Plus c =>
      match s with
      | String a s' => if c a then star c s' (fun rest => k rest caps) else None
      | EmptyString => None
      end
  | Seq r1 r2 => matchRe r1 s caps (fun rest caps' => matchRe r2 rest caps' k)
  | Cap r1 =>
      matchRe r1 s caps (fun rest caps' =>
        k rest (caps' ++ [substring 0 (String.length s - String.length rest) s])%list)
  | Opt r1 =>
      match matchRe r1 s caps k with
      | Some x => Some x
      | None => k s caps
      end
  end.
End Matcher.

(** A match at the start of [s]: the number of characters matched and the
    capture groups [match[1]], [match[2]], ... *)
Definition matchHere (r : re) (s : string) : option (nat * list string) :=
  matchRe r s [] (fun rest caps => Some (String.length s - String.length rest, caps)).

(** [s.matchAll(r)] for a global pattern that matches at least one
    character: the matches from left to right, each search starting where
    the previous match ended.  [skip] counts the characters of the previous
    match still to pass. *)
Fixpoint matchAllFrom (r : re) (s : string) (skip : nat) : list (list string) :=
  match s with
  | EmptyString => []
  | String _ s' =>
      match skip with
      | S n => matchAllFrom r s' n
      | O =>
          match matchHere r s with
          | Some (len, caps) => caps :: matchAllFrom r s' (len - 1)
          | None => matchAllFrom r s' 0
          end
      end
  end.

Definition matchAll (r : re) (s : string) : list (list string) := matchAllFrom r s 0.

(** [parseInt(s, 10)] on a string of digits. *)
Definition parseInt (s : string) : nat :=
  fold_left (fun n c => 10 * n + (nat_of_ascii c - 48)) (list_ascii_of_string s) 0.

End RegExp.

(** ** [build.ts] *)
Module Build.

(** Concatenation of the pieces pushed to an array. *)
Local Notation "a +++ b" := (@List.app string a b) (at level 60, right associativity).

(** The line feed that ends a pushed line or joins the output. *)
Definition nl : string := String (ascii_of_nat 10) EmptyString.

Definition notNewlineOrParen (c : ascii) : bool :=
  negb (Ascii.eqb c (ascii_of_nat 10)) && negb (Ascii.eqb c "(").

Definition notNewline (c : ascii) : bool := negb (Ascii.eqb c (ascii_of_nat 10)).

(** The pattern of [parseSections]:
    a heading [## <digits>. <title> (<prefix>)], a line [**Impact:** <level>]
    and a line [**Description:** <text>]. *)
Definition sectionPattern : RegExp.re :=
  let seq := fold_right RegExp.Seq (RegExp.Lit EmptyString) in
  seq [ RegExp.Lit "##"; RegExp.Plus JS.isSpace;
        RegExp.Cap (RegExp.Plus JS.isDigit);
        RegExp.Lit "."; RegExp.Plus JS.isSpace;
        RegExp.Cap (RegExp.Plus notNewlineOrParen);
        RegExp.Star JS.isSpace; RegExp.Lit "(";
        RegExp.Cap (RegExp.Plus JS.isWord);
        RegExp.Lit ")"; RegExp.Star JS.isSpace; RegExp.Lit nl;
        RegExp.Lit "**Impact:**"; RegExp.Star JS.isSpace;
        RegExp.Cap (RegExp.Seq (RegExp.Plus JS.isWord)
                      (RegExp.Opt (RegExp.Seq (RegExp.Lit "-") (RegExp.Plus JS.isWord))));
        RegExp.Star JS.isSpace; RegExp.Lit nl;
        RegExp.Lit "**Description:**"; RegExp.Star JS.isSpace;
        RegExp.Cap (RegExp.Plus notNewline) ].

(** The section one match yields: [match[1]] ... [match[5]]. *)
Definition sectionOfMatch (m : list string) : Section_ :=
  let g i := nth i m EmptyString in
  mkSection (RegExp.parseInt (g 0)) (JS.trim (g 1)) (JS.trim (g 2))
            (JS.trim (g 3)) (JS.trim (g 4)).

(** Default sections if _sections.md is missing or unparseable *)
Definition getDefaultSections : list Section_ :=
  [ mkSection 1 "Query Performance" "query" "CRITICAL"
      "Slow queries, missing indexes, inefficient plans";
    mkSection 2 "Connection Management" "conn" "CRITICAL"
      "Pooling, limits, serverless strategies";
    mkSection 3 "Schema Design" "schema" "HIGH"
      "Table design, indexes, partitioning, data types";
    mkSection 4 "Concurrency & Locking" "lock" "MEDIUM-HIGH"
      "Transactions, isolation, deadlocks";
    mkSection 5 "Security & RLS" "security" "MEDIUM-HIGH"
      "Row-Level Security, privileges, auth patterns";
    mkSection 6 "Data Access Patterns" "data" "MEDIUM"
      "N+1 queries, batch operations, pagination";
    mkSection 7 "Monitoring & Diagnostics" "monitor" "LOW-MEDIUM"
      "pg_stat_statements, EXPLAIN, metrics";
    mkSection 8 "Advanced Features" "advanced" "LOW"
      "Full-text search, JSONB, extensions" ].

(** Parse section definitions from _sections.md; [sectionsFile] is the
    content of the file, [None] when it does not exist. *)
Definition parseSections (sectionsFile : option string) : list Section_ :=
  match sectionsFile with
  | None => getDefaultSections
  | Some content =>
      let sections := List.map sectionOfMatch (RegExp.matchAll sectionPattern content) in
      if 0 <? List.length sections then sections else getDefaultSections
  end.

(** The clock [new Date()] reads: a year and a month, January being 0. *)
Record Date := mkDate {
  fullYear : nat;
  month : nat
}.

Definition monthNames : list string :=
  ["January"; "February"; "March"; "April"; "May"; "June"; "July"; "August";
   "September"; "October"; "November"; "December"].

(** [d.toLocaleDateString(en-US, { month: long, year: numeric })] *)
Definition toLocaleDateString (d : Date) : string :=
  nth (month d) monthNames EmptyString ++ " " ++ JS.ofNat (fullYear d).

(** Load metadata from metadata.json; [metadataFile] is the parsed content
    of the file, [None] when it does not exist. *)
Definition loadMetadata (now : Date) (metadataFile : option Metadata) : Metadata :=
  match metadataFile with
  | None =>
      mkMetadata "0.1.0" "Supabase" (toLocaleDateString now)
        "Postgres performance optimization guide for developers." []
  | Some m => m
  end.

(** [.replace(/[^a-z0-9\s-]/g, empty)] *)
Fixpoint stripNonAnchor (s : string) : string :=
  match s with
  | EmptyString => EmptyString
  | String c s' =>
      if JS.isLower c || JS.isDigit c || JS.isSpace c || Ascii.eqb c "-"
      then String c (stripNonAnchor s')
      else stripNonAnchor s'
  end.

(** [.replace(/\s+/g, -)]: [inRun] holds inside a run of white space,
    whose first character has been replaced already. *)
Fixpoint hyphenate (inRun : bool) (s : string) : string :=
  match s with
  | EmptyString => EmptyString
  | String c s' =>
      if JS.isSpace c
      then (if inRun then hyphenate true s' else String "-" (hyphenate true s'))
      else String c (hyphenate false s')
  end.

(** Generate anchor from title *)
Definition toAnchor (text : string) : string :=
  hyphenate false (stripNonAnchor (JS.toLowerCase text)).

(** [`${rule.id}`] *)
Definition idText (r : Rule) : string :=
  match id r with
  | Some s => s
  | None => "undefined"
  end.

(** [sectionRules.forEach((rule, index) => rule.id = ...)], from [index] on. *)
Fixpoint assignIds (sectionNum index : nat) (sectionRules : list Rule) : list Rule :=
  match sectionRules with
  | [] => []
  | r :: rest =>
      setId r (JS.ofNat sectionNum ++ "." ++ JS.ofNat (index + 1))
        :: assignIds sectionNum (S index) rest
  end.

(** [rulesBySection.get(n) || []] *)
Definition rulesOf (m : JS.map (list Rule)) (n : nat) : list Rule :=
  match JS.get m n with
  | Some l => l
  | None => []
  end.

(** The body of the grouping loop. *)
Definition groupRule (rulesBySection : JS.map (list Rule)) (rule : Rule)
    : JS.map (list Rule) :=
  let sectionRules := rulesOf rulesBySection (section rule) in
  JS.set rulesBySection (section rule) (sectionRules ++ [rule])%list.

(** One example of a rule, as pushed to [output]. *)
Definition renderExample (example : CodeExample) : list string :=
  [ if JS.falsyOpt (description example)
    then "**" ++ label example ++ ":**" ++ nl
    else "**" ++ label example ++ " (" ++ JS.orElse (description example) EmptyString
           ++ "):**" ++ nl;
    "```" ++ JS.orElse (language example) "sql";
    code example;
    "```" ++ nl ]
  +++ (if JS.falsyOpt (additionalText example) then []
       else [JS.orElse (additionalText example) EmptyString ++ nl]).

(** The references of a rule, as pushed to [output]. *)
Definition renderReferences (refs : list string) : list string :=
  match refs with
  | [] => []
  | [r] => ["Reference: " ++ r ++ nl]
  | _ => ["References:"] +++ List.map (fun r => "- " ++ r) refs +++ [EmptyString]
  end.

(** One rule of a section, as pushed to [output]. *)
Definition renderRule (rule : Rule) : list string :=
  [ "### " ++ idText rule ++ " " ++ title rule ++ nl;
    if JS.falsyOpt (impactDescription rule)
    then "**Impact: " ++ impact rule ++ "**" ++ nl
    else "**Impact: " ++ impact rule ++ " ("
           ++ JS.orElse (impactDescription rule) EmptyString ++ ")**" ++ nl;
    explanation rule ++ nl ]
  +++ flat_map renderExample (examples rule)
  +++ (if JS.falsyOpt (supabaseNotes rule) then []
       else ["**Supabase Note:** " ++ JS.orElse (supabaseNotes rule) EmptyString ++ nl])
  +++ renderReferences (references rule)
  +++ ["---" ++ nl].

(** One entry of the table of contents. *)
Definition renderTocSection (rulesBySection : JS.map (list Rule)) (s : Section_)
    : list string :=
  let sectionRules := rulesOf rulesBySection (number s) in
  [ JS.ofNat (number s) ++ ". [" ++ sectionTitle s ++ "](#" ++ toAnchor (sectionTitle s)
      ++ ") - **" ++ sectionImpact s ++ "**" ]
  +++ List.map (fun rule =>
        "   - " ++ idText rule ++ " [" ++ title rule ++ "](#"
          ++ toAnchor (idText rule ++ "-" ++ title rule) ++ ")") sectionRules
  +++ [EmptyString].

(** One section with its rules. *)
Definition renderSection (rulesBySection : JS.map (list Rule)) (s : Section_)
    : list string :=
  let sectionRules := rulesOf rulesBySection (number s) in
  [ "## " ++ JS.ofNat (number s) ++ ". " ++ sectionTitle s ++ nl;
    "**Impact: " ++ sectionImpact s ++ "**" ++ nl;
    sectionDescription s ++ nl ]
  +++ (if List.length sectionRules =? 0
       then ["*No rules defined yet. See rules/_template.md for creating new rules.*" ++ nl]
       else [])
  +++ flat_map renderRule sectionRules.

(** The lines pushed to [output], from the header to the references. *)
Definition render (metadata : Metadata) (sections : list Section_)
    (rulesBySection : JS.map (list Rule)) : list string :=
  [ "# Postgres Best Practices" ++ nl;
    "**Version " ++ version metadata ++ "**";
    organization metadata;
    date metadata ++ nl;
    "> This document is optimized for AI agents and LLMs. Rules are prioritized by performance impact." ++ nl;
    "---" ++ nl;
    "## Abstract" ++ nl;
    abstract metadata ++ nl;
    "---" ++ nl;
    "## Table of Contents" ++ nl ]
  +++ flat_map (renderTocSection rulesBySection) sections
  +++ ["---" ++ nl]
  +++ flat_map (renderSection rulesBySection) sections
  +++ (if 0 <? List.length (metaReferences metadata)
       then ["## References" ++ nl]
              +++ List.map (fun r => "- " ++ r) (metaReferences metadata)
              +++ [EmptyString]
       else []).

(** What a run of the build reads: the directory listing, the two optional
    files and the clock. *)
Record World := mkWorld {
  listing : list string;
  sectionsFile : option string;
  metadataFile : option Metadata;
  now : Date
}.

(** What a run of the build produces: the text written to [AGENTS_OUTPUT]
    and the count it reports. *)
Record Output := mkOutput {
  document : string;
  totalRules : nat
}.

Section WithRuntime.

Variable parseRuleFile : string -> ParseResult.
Variable RULES_DIR : string.

(** [a.localeCompare(b)]: negative, zero or positive. *)
Variable localeCompare : string -> string -> Z.

(** Get all rule files *)
Definition ruleFiles (listing : list string) : list string :=
  List.map (Path.join RULES_DIR)
    (List.filter (fun f => JS.endsWith f ".md" && negb (JS.startsWith f "_")) listing).

(** Parse and validate all rules: the body of the loop. *)
Definition collectRule (rules : list Rule) (file : string) : list Rule :=
  let validation := Validate.validateRuleFile parseRuleFile file in
  if negb (valid validation) then rules
  else
    let result := parseRuleFile file in
    match success result, rule result with
    | true, Some rule => (rules ++ [rule])%list
    | _, _ => rules
    end.

(** [sectionRules.sort((a, b) => a.title.localeCompare(b.title))].
    The sort of an array is stable; for a comparator that orders its
    arguments consistently the result is the one stable sorted
    arrangement, computed here by insertion. *)
Fixpoint insertRule (r : Rule) (sorted : list Rule) : list Rule :=
  match sorted with
  | [] => [r]
  | r' :: rest =>
      if (localeCompare (title r) (title r') <=? 0)%Z
      then r :: r' :: rest
      else r' :: insertRule r rest
  end.

Definition sortRules (sectionRules : list Rule) : list Rule :=
  fold_right insertRule [] sectionRules.

(** Group rules by section and assign IDs: the map [rulesBySection]
    after the two loops. *)
Definition groupAndAssign (rules : list Rule) : JS.map (list Rule) :=
  let rulesBySection := fold_left groupRule rules [] in
  List.map (fun '(sectionNum, sectionRules) =>
              (sectionNum, assignIds sectionNum 0 (sortRules sectionRules)))
           rulesBySection.

(** Build AGENTS.md from all rule files *)
Definition buildAgents (w : World) : Output :=
  let metadata := loadMetadata (now w) (metadataFile w) in
  let sections := parseSections (sectionsFile w) in
  let rules := fold_left collectRule (ruleFiles (listing w)) [] in
  let rulesBySection := groupAndAssign rules in
  mkOutput (JS.join nl (render metadata sections rulesBySection))
           (List.length rules).

End WithRuntime.

End Build.

(** ** [validate.ts], run as the main module *)
Module ValidateMain.

(** Concatenation of the lines given to [console.log]. *)
Local Notation "a +++ b" := (@List.app string a b) (at level 60, right associativity).

(** [s.repeat(n)] *)
Fixpoint repeat (s : string) (n : nat) : string :=
  match n with
  | O => EmptyString
  | S n' => s ++ repeat s n'
  end.

(** What the run leaves behind: the lines given to [console.log] and the
    code given to [process.exit]. *)
Record Run := mkRun {
  logged : list string;
  exitCode : nat
}.

(** The two variables the loop over [results] updates. *)
Record Report := mkReport {
  lines : list string;
  hasErrors : bool
}.

(** The body of the loop over [results]. *)
Definition reportResult (acc : Report) (entry : string * ValidationResult) : Report :=
  let filename := fst entry in
  let result := snd entry in
  if negb (valid result) || (0 <? List.length (warnings result))
  then
    mkReport
      (lines acc +++ [Build.nl ++ filename ++ ":"]
         +++ List.map (fun error => "  ERROR: " ++ error) (errors result)
         +++ List.map (fun warning => "  WARNING: " ++ warning) (warnings result))
      (hasErrors acc || (0 <? List.length (errors result)))
  else acc.

Section WithParser.

Variable parseRuleFile : string -> ParseResult.
Variable RULES_DIR : string.

(** Run validation when executed directly; [listing] is what
    [readdirSync(RULES_DIR)] returns. *)
Definition main (listing : list string) : Run :=
  let banner := ["Validating Postgres best practices rules..." ++ Build.nl] in
  let summary := Validate.validateAllRules parseRuleFile RULES_DIR listing in
  if Validate.totalFiles summary =? 0
  then
    mkRun (banner +++
           [ "No rule files found (this is expected for initial setup).";
             "Create rule files in: skills/postgres-best-practices/rules/";
             "Use the _template.md as a starting point." ++ Build.nl ])
          0
  else
    let report := fold_left reportResult (Validate.results summary) (mkReport banner false) in
    let out :=
      lines report +++
      [ Build.nl ++ repeat "=" 50;
        "Total: " ++ JS.ofNat (Validate.totalFiles summary) ++ " files | Valid: "
          ++ JS.ofNat (Validate.validFiles summary) ++ " | Invalid: "
          ++ JS.ofNat (Validate.invalidFiles summary) ] in
    if hasErrors report
    then mkRun (out +++ [Build.nl ++ "Validation failed. Please fix the errors above."]) 1
    else mkRun (out +++ [Build.nl ++ "Validation passed!"]) 0.

End WithParser.

End ValidateMain.

(** ** Notions used to state the properties *)

(** A comparator orders its arguments consistently when exchanging them
    exchanges the sign and when the order it induces is transitive. *)
Record Consistent (cmp : string -> string -> Z) : Prop := mkConsistent {
  cmp_antisym : forall a b, Z.sgn (cmp a b) = (- Z.sgn (cmp b a))%Z;
  cmp_trans : forall a b c, (cmp a b <= 0)%Z -> (cmp b c <= 0)%Z -> (cmp a c <= 0)%Z
}.

(** The order of character codes, a comparator to run the examples with. *)
Definition codeCompare (a b : string) : Z :=
  match String.compare a b with
  | Lt => (-1)%Z
  | Eq => 0%Z
  | Gt => 1%Z
  end.

(** The keywords of the two label checks. *)
Definition badKeywords : list string := ["incorrect"; "wrong"; "bad"].
Definition goodKeywords : list string :=
  ["correct"; "good"; "usage"; "implementation"; "example"; "recommended"].

(** The lower-cased label contains one of the keywords. *)
Definition containsKeyword (keywords : list string) (label : string) : bool :=
  existsb (JS.includes (JS.toLowerCase label)) keywords.

(** The name test of the three entry points. *)
Definition isRuleFileName (f : string) : bool :=
  JS.endsWith f ".md" && negb (JS.startsWith f "_").

(** The diagnostics of the examples block of [validateRuleFile]. *)
Definition exampleRelated (msg : string) : bool :=
  existsb (String.eqb msg)
    [Validate.msgMissingExamples; Validate.msgMissingBadGood; Validate.msgMissingBad;
     Validate.msgMissingGood; Validate.msgNoCode]
  || JS.startsWith msg ("Example " ++ Validate.dquote).

(** The empty pair of arrays. *)
Definition nilDiag : Validate.Diag := Validate.mkDiag [] [].

(** What the checks of the validator add for a rule. *)
Definition ruleErrors (r : Rule) : list string :=
  Validate.errs (Validate.validateRule r nilDiag).
Definition ruleWarnings (r : Rule) : list string :=
  Validate.warns (Validate.validateRule r nilDiag).

(** A step of the validator only appends to the two arrays. *)
Definition Appends (f : Validate.Diag -> Validate.Diag) : Prop :=
  forall d,
    f d = Validate.mkDiag (Validate.errs d ++ Validate.errs (f nilDiag))%list
                          (Validate.warns d ++ Validate.warns (f nilDiag))%list.

(** The errors of the checks before the impact check are fixed messages. *)
Definition fixedErrors : list string :=
  [Validate.msgMissingTitle; Validate.msgMissingExplanation; Validate.msgMissingExamples;
   Validate.msgMissingBadGood; Validate.msgMissingGood; Validate.msgNoCode].

(** The order of two rules by title. *)
Definition titleLe (cmp : string -> string -> Z) (a b : Rule) : Prop :=
  (cmp (title a) (title b) <= 0)%Z.

(** The rules whose title compares equal to [t]. *)
Definition sameTitle (cmp : string -> string -> Z) (t : string) (r : Rule) : bool :=
  (cmp t (title r) =? 0)%Z.

(** A successful parse with no diagnostics of its own. *)
Definition parsed (r : Rule) : ParseResult := mkParseResult true (Some r) [] [].

(** A failed parse. *)
Definition unparsed (msg : string) : ParseResult := mkParseResult false None [msg] [].

(** Modelled from the spec: [parser.ts] is not among the sources; all
    failure of the parser is returned as structured errors (section 4.1), so
    a result reports an error whenever the parse failed. *)
Definition reportsFailure (p : ParseResult) : Prop :=
  success p = false \/ rule p = None -> parseErrors p <> [].

(** The test case of an example with code and a class, as the extractor
    builds it. *)
Definition testCaseOf (rid : string) (r : Rule) (e : CodeExample) (ty : CaseType)
    : TestCase :=
  mkTestCase rid (title r) ty (code e) (JS.orElse (language e) "sql")
    (JS.orElse (description e) (label e ++ " example for " ++ title r)).

(** Membership of the errors of a check in [fixedErrors], case by case. *)
Ltac in_fixed :=
  let m := fresh "m" in
  let Hm := fresh "Hm" in
  simpl; intros m Hm; simpl in Hm;
  repeat (destruct Hm as [<- | Hm]; [unfold fixedErrors; simpl; tauto|]);
  destruct Hm.

(** ** Sample rules *)
Module Sample.

Definition incorrect : CodeExample :=
  mkExample "Incorrect (N+1 query)" None "SELECT * FROM a;" (Some "sql") None.

Definition correct : CodeExample :=
  mkExample "Correct (batched)" None "SELECT * FROM a WHERE id = ANY($1);"
    (Some "sql") None.

Definition explanationText : string :=
  "Indexes let the planner avoid scanning every row of a large table.".

(** A rule that passes every check, with a bad and a good example. *)
Definition ruleOf (title : string) (section : nat) : Rule :=
  mkRule None title section "HIGH" (Some "10x faster") explanationText
    [incorrect; correct] None [].

Definition zebra : Rule := ruleOf "Zebra Index" 3.
Definition avoid : Rule := ruleOf "Avoid Bloat" 3.

(** A rule whose only example is labelled as the bad one. *)
Definition onlyIncorrect (label : string) : Rule :=
  mkRule None "Add Missing Index" 1 "CRITICAL" (Some "100x faster") explanationText
    [mkExample label None "SELECT * FROM a;" (Some "sql") None] None [].

(** A rule with an impact outside the enumeration. *)
Definition severe : Rule :=
  mkRule None "Add Missing Index" 1 "SEVERE" (Some "100x faster") explanationText
    [incorrect; correct] None [].

(** A rule without examples. *)
Definition bare : Rule :=
  mkRule None "Add Missing Index" 1 "CRITICAL" (Some "100x faster") explanationText
    [] None [].

(** A rule that draws warnings only: a short explanation, no bad example,
    no language tag, no impact description. *)
Definition flagged : Rule :=
  mkRule None "Avoid SELECT Star" 1 "HIGH" None "List the columns."
    [mkExample "Correct" None "SELECT id FROM a;" None None] None [].

(** A rules directory: the file a parser finds behind each path. *)
Definition parserOf (files : list (string * ParseResult)) (path : string) : ParseResult :=
  match find (fun e => (fst e =? path)%string) files with
  | Some e => snd e
  | None => unparsed "Missing title"
  end.

Definition dir : string := "rules".

(** Two rules of section 3 whose file order is not their title order. *)
Definition schemaFiles : string -> ParseResult :=
  parserOf [ ("rules/schema-a.md", parsed zebra); ("rules/schema-b.md", parsed avoid) ].

(** A section file with two well-formed sections and a heading that the
    pattern does not match. *)
Definition twoSections : string :=
  "# Sections" ++ Build.nl ++ Build.nl
  ++ "## 1. Query Performance (query)" ++ Build.nl
  ++ "**Impact:** CRITICAL" ++ Build.nl
  ++ "**Description:** Slow queries, missing indexes" ++ Build.nl ++ Build.nl
  ++ "## 2. Connection Management (conn)" ++ Build.nl
  ++ "**Impact:** MEDIUM-HIGH" ++ Build.nl
  ++ "**Description:** Pooling" ++ Build.nl ++ Build.nl
  ++ "## 3. Schema Design" ++ Build.nl
  ++ "**Impact:** HIGH" ++ Build.nl.

End Sample.

(** ** Notions used to state the further properties *)

(** The characters of an anchor: lower-case letters, digits and the hyphen. *)
Definition anchorChar (c : ascii) : bool :=
  JS.isLower c || JS.isDigit c || Ascii.eqb c "-".

(** Every character of [s] satisfies [p]. *)
Fixpoint allChars (p : ascii -> bool) (s : string) : bool :=
  match s with
  | EmptyString => true
  | String c s' => p c && allChars p s'
  end.

(** A string with a character that is not white space. *)
Definition notBlank (s : string) : Prop := JS.trim s <> EmptyString.

(** The rules of the files that pass validation, in the order of the files. *)
Definition validRules (parseRuleFile : string -> ParseResult) (files : list string)
    : list Rule :=
  flat_map (fun file =>
              if valid (Validate.validateRuleFile parseRuleFile file)
              then match rule (parseRuleFile file) with
                   | Some r => [r]
                   | None => []
                   end
              else []) files.

(** The id [<section>.<k>] of a rule that comes after the rules [before],
    [k - 1] of which are of its section. *)
Definition fileOrderId (before : list Rule) (r : Rule) : string :=
  JS.ofNat (section r) ++ "."
    ++ JS.ofNat (List.length (filter (fun x => section x =? section r) before) + 1).

(** The rules paired with their ids in file order. *)
Fixpoint numbered (before rules : list Rule) : list (Rule * string) :=
  match rules with
  | [] => []
  | r :: rest => (r, fileOrderId before r) :: numbered (before ++ [r])%list rest
  end.

(** The test cases of one rule under the id [rid]. *)
Definition casesOfRule (rid : string) (r : Rule) : list TestCase :=
  fold_left (ExtractTests.extractExample rid r) (examples r) [].

(** A rule without its id. *)
Definition eraseId (r : Rule) : Rule :=
  mkRule None (title r) (section r) (impact r) (impactDescription r)
         (explanation r) (examples r) (supabaseNotes r) (references r).

(** No two rules of one section have titles that compare equal. *)
Definition distinctTitles (cmp : string -> string -> Z) (rules : list Rule) : Prop :=
  forall a b, In a rules -> In b rules -> section a = section b ->
              cmp (title a) (title b) = 0%Z -> a = b.



(** A rules directory with a template and a text file next to one rule
    file; each of the three would parse as a rule that passes. *)
Definition mixedFiles : string -> ParseResult :=
  Sample.parserOf [ ("rules/_template.md", parsed Sample.avoid);
                    ("rules/notes.txt", parsed Sample.avoid);
                    ("rules/schema-a.md", parsed Sample.zebra) ].

(** A name without a slash, as a directory entry is. *)
Definition plainName (f : string) : Prop := JS.includes f "/" = false.

(** The section numbers of a section list. *)
Definition listed (sections : list Section_) (n : nat) : bool :=
  existsb (fun s => number s =? n) sections.

(** ** Runs of the model *)

Example toAnchor_section_title :
  Build.toAnchor "Concurrency & Locking" = "concurrency-locking".
Proof. reflexivity. Qed.

Example trim_both_ends : JS.trim ("  a b " ++ Build.nl) = "a b".
Proof. reflexivity. Qed.

Example basename_of_joined : Path.basename (Path.join "skills/rules" "query-a.md") = "query-a.md".
Proof. reflexivity. Qed.

Example classify_labels :
  List.map ExtractTests.classify
    ["Incorrect (N+1 query)"; "Correct (batched)"; "Wrong"; "Recommended"; "Before"]
  = [Some bad; Some good; Some bad; Some good; None].
Proof. reflexivity. Qed.

(** A rule with a bad and a good example is valid with no diagnostic. *)
Example validate_complete_rule :
  Validate.validateRuleFile
    (Sample.parserOf [("rules/query-index.md", parsed (Sample.ruleOf "Add Missing Index" 1))])
    "rules/query-index.md"
  = mkValidationResult true [] [].
Proof. reflexivity. Qed.

(** A rule with a good example only is valid; the missing bad example is
    one of its warnings. *)
Example validate_flagged_rule :
  Validate.validateRuleFile
    (Sample.parserOf [("rules/query-star.md", parsed Sample.flagged)]) "rules/query-star.md"
  = mkValidationResult true []
      [ Validate.msgShortExplanation; Validate.msgMissingBad;
        Validate.msgMissingLanguage "Correct"; Validate.msgMissingImpactDescription ].
Proof. reflexivity. Qed.

(** The two examples of a rule become a bad and a good test case under the
    id of the rule. *)
Example extract_two_cases :
  ExtractTests.extractTestCases
    (Sample.parserOf [("rules/query-index.md", parsed (Sample.ruleOf "Add Missing Index" 1))])
    Sample.dir ["_template.md"; "query-index.md"; "notes.txt"]
  = [ mkTestCase "1.1" "Add Missing Index" bad "SELECT * FROM a;" "sql"
        "Incorrect (N+1 query) example for Add Missing Index";
      mkTestCase "1.1" "Add Missing Index" good "SELECT * FROM a WHERE id = ANY($1);" "sql"
        "Correct (batched) example for Add Missing Index" ].
Proof. reflexivity. Qed.

(** With no rule file the document starts with the header of the default
    metadata and counts no rule. *)
Example build_empty_directory :
  let out := Build.buildAgents (fun _ => unparsed "Missing title") Sample.dir codeCompare
               (Build.mkWorld [] None None (Build.mkDate 2026 0)) in
  Build.totalRules out = 0 /\
  JS.startsWith (Build.document out)
    ("# Postgres Best Practices" ++ Build.nl ++ Build.nl ++ "**Version 0.1.0**" ++ Build.nl
     ++ "Supabase" ++ Build.nl ++ "January 2026" ++ Build.nl) = true.
Proof. split; reflexivity. Qed.

(** ** Facts about the string operations *)

Lemma prefix_iff (t s : string) :
  String.prefix t s = true <-> exists b, s = t ++ b.
Proof.
  revert s; induction t as [|a t IH]; intros s; simpl.
  - destruct s; split; eauto.
  - destruct s as [|c s]; simpl.
    + split; [discriminate | intros [b Hb]; discriminate].
    + destruct (ascii_dec a c) as [->|Hne].
      * rewrite IH. split; intros [b Hb]; exists b; congruence.
      * split; [discriminate | intros [b Hb]; congruence].
Qed.

Lemma startsWith_iff (s p : string) :
  JS.startsWith s p = true <-> exists rest, s = p ++ rest.
Proof. apply prefix_iff. Qed.

Lemma includes_unfold (s t : string) :
  JS.includes s t =
  String.prefix t s ||
  match s with
  | EmptyString => false
  | String _ s' => JS.includes s' t
  end.
Proof. destruct s; reflexivity. Qed.

Lemma includes_iff (s t : string) :
  JS.includes s t = true <-> exists a b, s = a ++ t ++ b.
Proof.
  induction s as [|c s IH]; rewrite includes_unfold.
  - rewrite orb_false_r, prefix_iff. split.
    + intros [b Hb]. exists EmptyString, b. exact Hb.
    + intros [a [b Hb]]. destruct a; simpl in Hb; [eauto | discriminate].
  - rewrite orb_true_iff, IH, prefix_iff. split.
    + intros [[b Hb] | [a [b Hb]]].
      * exists EmptyString, b. exact Hb.
      * exists (String c a), b. simpl. congruence.
    + intros [a [b Hb]]. destruct a as [|c' a]; simpl in Hb.
      * left. eauto.
      * right. exists a, b. congruence.
Qed.

Lemma length_append (a b : string) :
  String.length (a ++ b) = String.length a + String.length b.
Proof. induction a; simpl; congruence. Qed.

Lemma substring_all (t : string) : substring 0 (String.length t) t = t.
Proof. induction t; simpl; congruence. Qed.

Lemma substring_skip (a t : string) :
  substring (String.length a) (String.length t) (a ++ t) = t.
Proof. induction a; simpl; auto using substring_all. Qed.

Lemma substring_split (s : string) (n : nat) :
  n <= String.length s ->
  s = substring 0 n s ++ substring n (String.length s - n) s.
Proof.
  revert n; induction s as [|c s IH]; intros n Hn; simpl in *.
  - destruct n; [reflexivity | lia].
  - destruct n as [|n]; simpl.
    + now rewrite substring_all.
    + f_equal. apply IH. lia.
Qed.

Lemma endsWith_iff (s t : string) :
  JS.endsWith s t = true <-> exists stem, s = stem ++ t.
Proof.
  unfold JS.endsWith. rewrite andb_true_iff, Nat.leb_le, String.eqb_eq. split.
  - intros [Hle Hsub]. exists (substring 0 (String.length s - String.length t) s).
    rewrite (substring_split s (String.length s - String.length t)) at 1 by lia.
    f_equal. rewrite <- Hsub at 3. f_equal. lia.
  - intros [stem ->]. rewrite length_append. split; [lia|].
    replace (String.length stem + String.length t - String.length t)
      with (String.length stem) by lia.
    apply substring_skip.
Qed.

Lemma isRuleFileName_iff (f : string) :
  isRuleFileName f = true <->
  (exists stem, f = stem ++ ".md") /\ ~ (exists rest, f = "_" ++ rest).
Proof.
  unfold isRuleFileName.
  rewrite andb_true_iff, negb_true_iff, endsWith_iff, <- startsWith_iff.
  destruct (JS.startsWith f "_"); intuition congruence.
Qed.

Lemma join_injective (dir f g : string) : Path.join dir f = Path.join dir g -> f = g.
Proof.
  unfold Path.join. induction dir as [|c dir IH]; simpl; intros H.
  - now injection H.
  - apply IH. now injection H.
Qed.

(** ** The files the three entry points process *)

Lemma in_joined_filter (dir : string) (listing : list string) (f : string) :
  In (Path.join dir f) (List.map (Path.join dir) (List.filter isRuleFileName listing)) <->
  In f listing /\ (exists stem, f = stem ++ ".md") /\ ~ (exists rest, f = "_" ++ rest).
Proof.
  rewrite in_map_iff, <- isRuleFileName_iff. split.
  - intros [g [Hg Hin]]. apply join_injective in Hg. subst g.
    now apply filter_In in Hin.
  - intros H. exists f. split; [reflexivity | now apply filter_In].
Qed.

Lemma filter_idempotent {A : Type} (p : A -> bool) (l : list A) :
  List.filter p (List.filter p l) = List.filter p l.
Proof.
  induction l as [|x l IH]; simpl; [reflexivity|].
  destruct (p x) eqn:Hp; simpl; rewrite ?Hp, IH; reflexivity.
Qed.

(** ** Facts about the validator *)

Lemma appends_skip : Appends (fun d => d).
Proof. intros [e w]; simpl. now rewrite !app_nil_r. Qed.

Lemma appends_pushError (msg : string) : Appends (Validate.pushError msg).
Proof. intros [e w]; unfold Validate.pushError; simpl. now rewrite app_nil_r. Qed.

Lemma appends_pushWarning (msg : string) : Appends (Validate.pushWarning msg).
Proof. intros [e w]; unfold Validate.pushWarning; simpl. now rewrite app_nil_r. Qed.

Lemma appends_then (f g : Validate.Diag -> Validate.Diag) :
  Appends f -> Appends g -> Appends (fun d => g (f d)).
Proof.
  intros Hf Hg d. rewrite (Hg (f d)), (Hg (f nilDiag)), (Hf d). simpl.
  now rewrite !app_assoc.
Qed.

Lemma appends_if (b : bool) (f g : Validate.Diag -> Validate.Diag) :
  Appends f -> Appends g -> Appends (fun d => if b then f d else g d).
Proof. destruct b; auto. Qed.

Create HintDb appends.

#[local] Hint Resolve appends_skip appends_pushError appends_pushWarning
  appends_then appends_if : appends.

Lemma appends_validateTitle (r : Rule) : Appends (Validate.validateTitle r).
Proof. unfold Validate.validateTitle. apply appends_if; auto with appends. Qed.

Lemma appends_validateExplanation (r : Rule) : Appends (Validate.validateExplanation r).
Proof.
  unfold Validate.validateExplanation.
  apply appends_if; [|apply appends_if]; auto with appends.
Qed.

Lemma appends_validateBadGood (hasBad hasGood : bool) :
  Appends (Validate.validateBadGood hasBad hasGood).
Proof.
  unfold Validate.validateBadGood.
  repeat apply appends_if; auto with appends.
Qed.

Lemma appends_validateLanguage (l : list CodeExample) :
  Appends (fold_left Validate.validateLanguage l).
Proof.
  induction l as [|e l IH]; simpl; [apply appends_skip|].
  apply (appends_then (fun d => Validate.validateLanguage d e)); [|exact IH].
  unfold Validate.validateLanguage. apply appends_if; auto with appends.
Qed.

Lemma appends_validateExamples (r : Rule) : Appends (Validate.validateExamples r).
Proof.
  unfold Validate.validateExamples. apply appends_if; [auto with appends|].
  apply (appends_then _ (fold_left Validate.validateLanguage (examples r)));
    [|apply appends_validateLanguage].
  apply (appends_then (Validate.validateBadGood _ _) (Validate.validateCode r));
    [apply appends_validateBadGood|].
  unfold Validate.validateCode. apply appends_if; auto with appends.
Qed.

Lemma appends_validateImpact (r : Rule) : Appends (Validate.validateImpact r).
Proof. unfold Validate.validateImpact. apply appends_if; auto with appends. Qed.

Lemma appends_validateImpactDescription (r : Rule) :
  Appends (Validate.validateImpactDescription r).
Proof. unfold Validate.validateImpactDescription. apply appends_if; auto with appends. Qed.

#[local] Hint Resolve appends_validateTitle appends_validateExplanation
  appends_validateExamples appends_validateImpact appends_validateImpactDescription
  : appends.

Lemma errs_then (f g : Validate.Diag -> Validate.Diag) (d : Validate.Diag) :
  Appends g ->
  Validate.errs (g (f d)) = (Validate.errs (f d) ++ Validate.errs (g nilDiag))%list /\
  Validate.warns (g (f d)) = (Validate.warns (f d) ++ Validate.warns (g nilDiag))%list.
Proof. intros Hg. rewrite (Hg (f d)). simpl. auto. Qed.

(** The errors a rule draws, check by check. *)
Lemma ruleErrors_split (r : Rule) :
  ruleErrors r =
    (Validate.errs (Validate.validateTitle r nilDiag)
     ++ Validate.errs (Validate.validateExplanation r nilDiag)
     ++ Validate.errs (Validate.validateExamples r nilDiag)
     ++ Validate.errs (Validate.validateImpact r nilDiag)
     ++ Validate.errs (Validate.validateImpactDescription r nilDiag))%list.
Proof.
  unfold ruleErrors, Validate.validateRule.
  rewrite (proj1 (errs_then _ (Validate.validateImpactDescription r) _ ltac:(auto with appends))).
  rewrite (proj1 (errs_then _ (Validate.validateImpact r) _ ltac:(auto with appends))).
  rewrite (proj1 (errs_then _ (Validate.validateExamples r) _ ltac:(auto with appends))).
  rewrite (proj1 (errs_then _ (Validate.validateExplanation r) _ ltac:(auto with appends))).
  now rewrite <- !app_assoc.
Qed.

(** The warnings a rule draws, check by check. *)
Lemma ruleWarnings_split (r : Rule) :
  ruleWarnings r =
    (Validate.warns (Validate.validateTitle r nilDiag)
     ++ Validate.warns (Validate.validateExplanation r nilDiag)
     ++ Validate.warns (Validate.validateExamples r nilDiag)
     ++ Validate.warns (Validate.validateImpact r nilDiag)
     ++ Validate.warns (Validate.validateImpactDescription r nilDiag))%list.
Proof.
  unfold ruleWarnings, Validate.validateRule.
  rewrite (proj2 (errs_then _ (Validate.validateImpactDescription r) _ ltac:(auto with appends))).
  rewrite (proj2 (errs_then _ (Validate.validateImpact r) _ ltac:(auto with appends))).
  rewrite (proj2 (errs_then _ (Validate.validateExamples r) _ ltac:(auto with appends))).
  rewrite (proj2 (errs_then _ (Validate.validateExplanation r) _ ltac:(auto with appends))).
  now rewrite <- !app_assoc.
Qed.

Lemma appends_validateRule (r : Rule) : Appends (Validate.validateRule r).
Proof.
  unfold Validate.validateRule.
  apply (appends_then _ (Validate.validateImpactDescription r)); [|auto with appends].
  apply (appends_then _ (Validate.validateImpact r)); [|auto with appends].
  apply (appends_then _ (Validate.validateExamples r)); [|auto with appends].
  apply (appends_then (Validate.validateTitle r) (Validate.validateExplanation r));
    auto with appends.
Qed.

(** The result of the validator on a file that parses. *)
Lemma validateRuleFile_parsed (parseRuleFile : string -> ParseResult) (file : string)
    (r : Rule) :
  success (parseRuleFile file) = true ->
  rule (parseRuleFile file) = Some r ->
  Validate.validateRuleFile parseRuleFile file =
    mkValidationResult
      (List.length (parseErrors (parseRuleFile file) ++ ruleErrors r) =? 0)
      (parseErrors (parseRuleFile file) ++ ruleErrors r)
      (parseWarnings (parseRuleFile file) ++ ruleWarnings r).
Proof.
  intros Hs Hr. unfold Validate.validateRuleFile. rewrite Hs, Hr. simpl.
  rewrite (appends_validateRule r _). reflexivity.
Qed.

(** The result of the validator on a file that does not parse. *)
Lemma validateRuleFile_unparsed (parseRuleFile : string -> ParseResult) (file : string) :
  success (parseRuleFile file) = false \/ rule (parseRuleFile file) = None ->
  Validate.validateRuleFile parseRuleFile file =
    mkValidationResult false (parseErrors (parseRuleFile file))
                       (parseWarnings (parseRuleFile file)).
Proof.
  intros H. unfold Validate.validateRuleFile.
  destruct H as [-> | ->]; [reflexivity|].
  destruct (success (parseRuleFile file)); reflexivity.
Qed.

(** A result is valid exactly when the file parsed and no error was collected. *)
Lemma valid_inv (parseRuleFile : string -> ParseResult) (file : string) :
  valid (Validate.validateRuleFile parseRuleFile file) = true ->
  exists r, success (parseRuleFile file) = true /\
            rule (parseRuleFile file) = Some r /\
            errors (Validate.validateRuleFile parseRuleFile file) = [].
Proof.
  destruct (success (parseRuleFile file)) eqn:Hs;
    [destruct (rule (parseRuleFile file)) as [r|] eqn:Hr|].
  - rewrite (validateRuleFile_parsed _ _ r Hs Hr). simpl. intros H.
    exists r. repeat split.
    apply Nat.eqb_eq in H. now apply length_zero_iff_nil.
  - rewrite validateRuleFile_unparsed by auto. discriminate.
  - rewrite validateRuleFile_unparsed by auto. discriminate.
Qed.

Lemma errs_validateLanguage (l : list CodeExample) (d : Validate.Diag) :
  Validate.errs (fold_left Validate.validateLanguage l d) = Validate.errs d.
Proof.
  revert d; induction l as [|e l IH]; intros d; simpl; [reflexivity|].
  rewrite IH. unfold Validate.validateLanguage.
  destruct (negb (JS.falsy (code e)) && JS.falsyOpt (language e)); reflexivity.
Qed.

Lemma warns_validateLanguage (l : list CodeExample) (d : Validate.Diag) (msg : string) :
  In msg (Validate.warns (fold_left Validate.validateLanguage l d)) ->
  In msg (Validate.warns d) \/ exists e, In e l /\ msg = Validate.msgMissingLanguage (label e).
Proof.
  revert d; induction l as [|e l IH]; intros d; simpl; [auto|].
  intros H. apply IH in H. destruct H as [H | [e' [He' ->]]]; [|eauto].
  unfold Validate.validateLanguage in H.
  destruct (negb (JS.falsy (code e)) && JS.falsyOpt (language e)); simpl in H; [|auto].
  apply in_app_or in H. destruct H as [H | [<- | []]]; eauto.
Qed.

Lemma errs_validateTitle (r : Rule) :
  incl (Validate.errs (Validate.validateTitle r nilDiag)) fixedErrors.
Proof.
  unfold Validate.validateTitle.
  destruct (JS.falsy (title r) || (String.length (JS.trim (title r)) =? 0));
    in_fixed.
Qed.

Lemma errs_validateExplanation (r : Rule) :
  incl (Validate.errs (Validate.validateExplanation r nilDiag)) fixedErrors.
Proof.
  unfold Validate.validateExplanation.
  destruct (JS.falsy (explanation r) || (String.length (JS.trim (explanation r)) =? 0));
    [|destruct (String.length (explanation r) <? 50)];
    in_fixed.
Qed.

Lemma errs_validateExamples (r : Rule) :
  incl (Validate.errs (Validate.validateExamples r nilDiag)) fixedErrors.
Proof.
  unfold Validate.validateExamples.
  destruct (List.length (examples r) =? 0).
  - in_fixed.
  - rewrite errs_validateLanguage.
    unfold Validate.validateCode, Validate.validateBadGood.
    destruct (JS.some Validate.exampleHasCode (examples r));
      destruct (JS.some (fun e => Validate.isBadExample (label e)) (examples r));
      destruct (JS.some (fun e => Validate.isGoodExample (label e)) (examples r));
      in_fixed.
Qed.

Lemma errs_validateImpactDescription (r : Rule) :
  Validate.errs (Validate.validateImpactDescription r nilDiag) = [].
Proof.
  unfold Validate.validateImpactDescription.
  destruct (JS.falsyOpt (impactDescription r)); reflexivity.
Qed.

Lemma invalidImpact_not_fixed (x : string) : ~ In (Validate.msgInvalidImpact x) fixedErrors.
Proof.
  unfold Validate.msgInvalidImpact, fixedErrors. simpl.
  intros H. repeat destruct H as [H | H]; try discriminate H. exact H.
Qed.

Lemma exampleRelated_language (l : string) :
  exampleRelated (Validate.msgMissingLanguage l) = true.
Proof.
  unfold exampleRelated. apply orb_true_iff. right. apply startsWith_iff.
  exists (l ++ Validate.dquote ++ " missing language specification"). reflexivity.
Qed.

(** Every diagnostic of the examples block is example-related. *)
Lemma exampleRelated_examples (r : Rule) (msg : string) :
  In msg (Validate.errs (Validate.validateExamples r nilDiag)) \/
  In msg (Validate.warns (Validate.validateExamples r nilDiag)) ->
  exampleRelated msg = true.
Proof.
  unfold Validate.validateExamples.
  destruct (List.length (examples r) =? 0).
  - simpl. intros [[<- | []] | []]. reflexivity.
  - intros [H | H].
    + rewrite errs_validateLanguage in H.
      unfold Validate.validateCode, Validate.validateBadGood in H.
      destruct (JS.some Validate.exampleHasCode (examples r));
        destruct (JS.some (fun e => Validate.isBadExample (label e)) (examples r));
        destruct (JS.some (fun e => Validate.isGoodExample (label e)) (examples r));
        simpl in H; repeat destruct H as [<- | H]; try reflexivity; destruct H.
    + apply warns_validateLanguage in H. destruct H as [H | [e [_ ->]]].
      * unfold Validate.validateCode, Validate.validateBadGood in H.
        destruct (JS.some Validate.exampleHasCode (examples r));
          destruct (JS.some (fun e => Validate.isBadExample (label e)) (examples r));
          destruct (JS.some (fun e => Validate.isGoodExample (label e)) (examples r));
          simpl in H; repeat destruct H as [<- | H]; try reflexivity; destruct H.
      * apply exampleRelated_language.
Qed.

(** The checks outside the examples block draw no example-related diagnostic. *)
Lemma exampleRelated_others (r : Rule) :
  filter exampleRelated (Validate.errs (Validate.validateTitle r nilDiag)) = [] /\
  filter exampleRelated (Validate.warns (Validate.validateTitle r nilDiag)) = [] /\
  filter exampleRelated (Validate.errs (Validate.validateExplanation r nilDiag)) = [] /\
  filter exampleRelated (Validate.warns (Validate.validateExplanation r nilDiag)) = [] /\
  filter exampleRelated (Validate.errs (Validate.validateImpact r nilDiag)) = [] /\
  filter exampleRelated (Validate.warns (Validate.validateImpact r nilDiag)) = [] /\
  filter exampleRelated (Validate.errs (Validate.validateImpactDescription r nilDiag)) = [] /\
  filter exampleRelated (Validate.warns (Validate.validateImpactDescription r nilDiag)) = [].
Proof.
  unfold Validate.validateTitle, Validate.validateExplanation, Validate.validateImpact,
    Validate.validateImpactDescription.
  destruct (JS.falsy (title r) || (String.length (JS.trim (title r)) =? 0));
    destruct (JS.falsy (explanation r) || (String.length (JS.trim (explanation r)) =? 0));
    destruct (String.length (explanation r) <? 50);
    destruct (negb (Config.isImpactLevel (impact r)));
    destruct (JS.falsyOpt (impactDescription r));
    repeat split; reflexivity.
Qed.

(** C8: for a rule whose examples sequence is empty, the examples block
    pushes the missing-examples error and nothing else, so that error is the
    only example-related diagnostic of the validation: no bad/good, has-code
    or language diagnostic is drawn. *)
Theorem C8_no_examples (parseRuleFile : string -> ParseResult) (file : string) (r : Rule) :
  success (parseRuleFile file) = true ->
  rule (parseRuleFile file) = Some r ->
  examples r = [] ->
  let v := Validate.validateRuleFile parseRuleFile file in
  (forall d, Validate.validateExamples r d
             = Validate.pushError Validate.msgMissingExamples d) /\
  errors v = (parseErrors (parseRuleFile file) ++ ruleErrors r)%list /\
  warnings v = (parseWarnings (parseRuleFile file) ++ ruleWarnings r)%list /\
  filter exampleRelated (ruleErrors r) = [Validate.msgMissingExamples] /\
  filter exampleRelated (ruleWarnings r) = [] /\
  (forall r' msg,
      In msg (Validate.errs (Validate.validateExamples r' nilDiag)) \/
      In msg (Validate.warns (Validate.validateExamples r' nilDiag)) ->
      exampleRelated msg = true).
Proof.
  intros Hs Hr He v.
  assert (Hex : forall d, Validate.validateExamples r d
                          = Validate.pushError Validate.msgMissingExamples d)
    by (intros d; unfold Validate.validateExamples; now rewrite He).
  destruct (exampleRelated_others r) as (T1 & T2 & X1 & X2 & I1 & I2 & D1 & D2).
  split; [exact Hex|].
  unfold v. rewrite (validateRuleFile_parsed _ _ r Hs Hr). simpl.
  split; [reflexivity|]. split; [reflexivity|].
  rewrite ruleErrors_split, ruleWarnings_split, !filter_app.
  rewrite T1, T2, X1, X2, I1, I2, D1, D2, Hex. simpl.
  split; [reflexivity|]. split; [reflexivity|].
  exact exampleRelated_examples.
Qed.

(** C8 at a rule without examples. *)
Lemma C8_no_examples_witness :
  let parse := Sample.parserOf [("rules/query-bare.md", parsed Sample.bare)] in
  errors (Validate.validateRuleFile parse "rules/query-bare.md")
    = [Validate.msgMissingExamples] /\
  warnings (Validate.validateRuleFile parse "rules/query-bare.md") = [].
Proof.
  pose proof (C8_no_examples
                (Sample.parserOf [("rules/query-bare.md", parsed Sample.bare)])
                "rules/query-bare.md" Sample.bare
                eq_refl eq_refl eq_refl) as H.
  cbv zeta in H. destruct H as (_ & He & Hw & _).
  split; [rewrite He | rewrite Hw]; reflexivity.
Defined.

(** ** Files that do not pass validation *)

Lemma isImpactLevel_iff (x : string) :
  Config.isImpactLevel x = true <-> In x Config.IMPACT_LEVELS.
Proof.
  unfold Config.isImpactLevel. rewrite existsb_exists. split.
  - intros [y [Hy Heq]]. apply String.eqb_eq in Heq. now subst.
  - intros H. exists x. split; [exact H | apply String.eqb_refl].
Qed.

(** A step that leaves the state alone at one file does not see that file
    in the directory. *)
Lemma fold_skip_file {A : Type} (step : A -> string -> A) (dir f : string) :
  (forall a, step a (Path.join dir f) = a) ->
  forall l1 l2 a,
    fold_left step (List.map (Path.join dir) (List.filter isRuleFileName (l1 ++ f :: l2))) a
    = fold_left step (List.map (Path.join dir) (List.filter isRuleFileName (l1 ++ l2))) a.
Proof.
  intros Hskip l1 l2 a.
  rewrite !filter_app, !map_app, !fold_left_app. simpl.
  destruct (isRuleFileName f); simpl; [rewrite Hskip|]; reflexivity.
Qed.

Lemma collectRule_invalid (parseRuleFile : string -> ParseResult) (file : string)
    (rules : list Rule) :
  valid (Validate.validateRuleFile parseRuleFile file) = false ->
  Build.collectRule parseRuleFile rules file = rules.
Proof. intros H. unfold Build.collectRule. now rewrite H. Qed.

Lemma extractFile_invalid (parseRuleFile : string -> ParseResult) (file : string)
    (st : ExtractTests.State) :
  valid (Validate.validateRuleFile parseRuleFile file) = false ->
  ExtractTests.extractFile parseRuleFile st file = st.
Proof. intros H. unfold ExtractTests.extractFile. now rewrite H. Qed.

(** Neither output changes when a file that fails validation leaves the
    directory. *)
Lemma invalid_file_excluded (parseRuleFile : string -> ParseResult) (RULES_DIR : string)
    (localeCompare : string -> string -> Z) (f : string) :
  valid (Validate.validateRuleFile parseRuleFile (Path.join RULES_DIR f)) = false ->
  (forall l1 l2 sections metadata now,
      Build.buildAgents parseRuleFile RULES_DIR localeCompare
        (Build.mkWorld (l1 ++ f :: l2) sections metadata now)
      = Build.buildAgents parseRuleFile RULES_DIR localeCompare
          (Build.mkWorld (l1 ++ l2) sections metadata now)) /\
  (forall l1 l2,
      ExtractTests.extractTestCases parseRuleFile RULES_DIR (l1 ++ f :: l2)
      = ExtractTests.extractTestCases parseRuleFile RULES_DIR (l1 ++ l2)).
Proof.
  intros Hinv. split.
  - intros l1 l2 sections metadata now.
    unfold Build.buildAgents, Build.ruleFiles. simpl.
    change (fun f0 => JS.endsWith f0 ".md" && negb (JS.startsWith f0 "_"))
      with isRuleFileName.
    rewrite (fold_skip_file (Build.collectRule parseRuleFile) RULES_DIR f); [reflexivity|].
    intros rules. now apply collectRule_invalid.
  - intros l1 l2.
    unfold ExtractTests.extractTestCases, ExtractTests.ruleFiles.
    change (fun f0 => JS.endsWith f0 ".md" && negb (JS.startsWith f0 "_"))
      with isRuleFileName.
    rewrite (fold_skip_file (ExtractTests.extractFile parseRuleFile) RULES_DIR f);
      [reflexivity|].
    intros st. now apply extractFile_invalid.
Qed.

(** C5: for a parsed rule whose impact is not one of the six levels, the
    validator pushes one error, which names the value and lists the six
    levels, after the errors of the parser and of the earlier checks, none of
    which is that error; the result is not valid, and the rendered document
    and the test-case list are those of the directory without the file. *)
Theorem C5_invalid_impact (parseRuleFile : string -> ParseResult) (RULES_DIR : string)
    (localeCompare : string -> string -> Z) (f : string) (r : Rule) :
  let file := Path.join RULES_DIR f in
  success (parseRuleFile file) = true ->
  rule (parseRuleFile file) = Some r ->
  ~ In (impact r) Config.IMPACT_LEVELS ->
  let v := Validate.validateRuleFile parseRuleFile file in
  let msg := "Invalid impact level: " ++ impact r
             ++ ". Must be one of: CRITICAL, HIGH, MEDIUM-HIGH, MEDIUM, LOW-MEDIUM, LOW" in
  let earlier := (Validate.errs (Validate.validateTitle r nilDiag)
                  ++ Validate.errs (Validate.validateExplanation r nilDiag)
                  ++ Validate.errs (Validate.validateExamples r nilDiag))%list in
  errors v = (parseErrors (parseRuleFile file) ++ earlier ++ [msg])%list /\
  ~ In msg earlier /\
  valid v = false /\
  (forall l1 l2 sections metadata now,
      Build.buildAgents parseRuleFile RULES_DIR localeCompare
        (Build.mkWorld (l1 ++ f :: l2) sections metadata now)
      = Build.buildAgents parseRuleFile RULES_DIR localeCompare
          (Build.mkWorld (l1 ++ l2) sections metadata now)) /\
  (forall l1 l2,
      ExtractTests.extractTestCases parseRuleFile RULES_DIR (l1 ++ f :: l2)
      = ExtractTests.extractTestCases parseRuleFile RULES_DIR (l1 ++ l2)).
Proof.
  intros file Hs Hr Himpact v msg earlier.
  assert (Hlevel : Config.isImpactLevel (impact r) = false).
  { destruct (Config.isImpactLevel (impact r)) eqn:E; [|reflexivity].
    apply isImpactLevel_iff in E. contradiction. }
  assert (Herrors : errors v = (parseErrors (parseRuleFile file) ++ earlier ++ [msg])%list).
  { unfold v. rewrite (validateRuleFile_parsed _ _ r Hs Hr). simpl.
    rewrite ruleErrors_split, errs_validateImpactDescription, app_nil_r.
    unfold Validate.validateImpact at 1. rewrite Hlevel. simpl.
    unfold earlier. now rewrite <- !app_assoc. }
  assert (Hvalid : valid v = false).
  { unfold v in *. rewrite (validateRuleFile_parsed _ _ r Hs Hr) in *. simpl in *.
    rewrite Herrors, !length_app. simpl. apply Nat.eqb_neq. lia. }
  split; [exact Herrors|]. split; [|split; [exact Hvalid|]].
  - intros Hin. apply (invalidImpact_not_fixed (impact r)).
    unfold earlier in Hin. apply in_app_or in Hin.
    destruct Hin as [Hin | Hin]; [now apply (errs_validateTitle r)|].
    apply in_app_or in Hin.
    destruct Hin as [Hin | Hin];
      [now apply (errs_validateExplanation r) | now apply (errs_validateExamples r)].
  - now apply invalid_file_excluded.
Qed.

(** C5 at a rule with [impact: SEVERE] that is well-formed otherwise. *)
Lemma C5_invalid_impact_witness :
  let parse := Sample.parserOf [("rules/query-severe.md", parsed Sample.severe)] in
  errors (Validate.validateRuleFile parse "rules/query-severe.md")
    = ["Invalid impact level: SEVERE. Must be one of: CRITICAL, HIGH, MEDIUM-HIGH, MEDIUM, LOW-MEDIUM, LOW"] /\
  valid (Validate.validateRuleFile parse "rules/query-severe.md") = false /\
  ExtractTests.extractTestCases parse Sample.dir ["query-severe.md"] = [].
Proof.
  assert (Hnot : ~ In (impact Sample.severe) Config.IMPACT_LEVELS)
    by (simpl; intros H; repeat destruct H as [H | H]; try discriminate H; exact H).
  pose proof (C5_invalid_impact
                (Sample.parserOf [("rules/query-severe.md", parsed Sample.severe)])
                Sample.dir codeCompare "query-severe.md" Sample.severe
                eq_refl eq_refl Hnot) as H.
  cbv zeta in H. destruct H as (He & _ & Hv & _ & Hx).
  change (Path.join Sample.dir "query-severe.md") with "rules/query-severe.md" in He, Hv.
  split; [rewrite He; reflexivity|]. split; [exact Hv|].
  exact (Hx [] []).
Defined.

(** ** Grouping, sorting and numbering in the builder *)

Lemma get_set {V : Type} (m : JS.map V) (k : nat) (v : V) (n : nat) :
  JS.get (JS.set m k v) n = if k =? n then Some v else JS.get m n.
Proof.
  induction m as [|[k' v'] m IH]; simpl; [reflexivity|].
  destruct (k' =? k) eqn:E; simpl.
  - apply Nat.eqb_eq in E. subst k'. destruct (k =? n); reflexivity.
  - rewrite IH. destruct (k' =? n) eqn:E2; [|reflexivity].
    destruct (k =? n) eqn:E3; [|reflexivity].
    apply Nat.eqb_eq in E2, E3. subst. now rewrite Nat.eqb_refl in E.
Qed.

Lemma rulesOf_groupRule (m : JS.map (list Rule)) (r : Rule) (n : nat) :
  Build.rulesOf (Build.groupRule m r) n =
    if section r =? n then (Build.rulesOf m n ++ [r])%list else Build.rulesOf m n.
Proof.
  unfold Build.groupRule, Build.rulesOf at 1. rewrite get_set.
  destruct (section r =? n) eqn:E; [|reflexivity].
  apply Nat.eqb_eq in E. now subst.
Qed.

(** After the grouping loop a section holds its rules in the order of the
    files. *)
Lemma rulesOf_group (rules : list Rule) (m : JS.map (list Rule)) (n : nat) :
  Build.rulesOf (fold_left Build.groupRule rules m) n =
    (Build.rulesOf m n ++ filter (fun r => section r =? n) rules)%list.
Proof.
  revert m; induction rules as [|r rules IH]; intros m; simpl.
  - now rewrite app_nil_r.
  - rewrite IH, rulesOf_groupRule.
    destruct (section r =? n); [now rewrite <- app_assoc | reflexivity].
Qed.

Lemma rulesOf_map (g : nat -> list Rule -> list Rule) (m : JS.map (list Rule)) (n : nat) :
  g n [] = [] ->
  Build.rulesOf (List.map (fun '(k, v) => (k, g k v)) m) n = g n (Build.rulesOf m n).
Proof.
  intros Hnil. unfold Build.rulesOf.
  induction m as [|[k v] m IH]; simpl; [now rewrite Hnil|].
  destruct (k =? n) eqn:E; [|exact IH].
  apply Nat.eqb_eq in E. now subst.
Qed.

(** The list of a section after the builder has sorted and numbered it. *)
Lemma rulesOf_groupAndAssign (cmp : string -> string -> Z) (rules : list Rule) (n : nat) :
  Build.rulesOf (Build.groupAndAssign cmp rules) n =
    Build.assignIds n 0 (Build.sortRules cmp (filter (fun r => section r =? n) rules)).
Proof.
  unfold Build.groupAndAssign.
  rewrite (rulesOf_map (fun k v => Build.assignIds k 0 (Build.sortRules cmp v)))
    by reflexivity.
  now rewrite rulesOf_group.
Qed.

Lemma nth_error_assignIds (n i : nat) (l : list Rule) (j : nat) (r : Rule) :
  nth_error l j = Some r ->
  nth_error (Build.assignIds n i l) j
    = Some (setId r (JS.ofNat n ++ "." ++ JS.ofNat (i + j + 1))).
Proof.
  revert i j; induction l as [|x l IH]; intros i j; destruct j as [|j]; simpl;
    try discriminate.
  - intros [= ->]. now rewrite Nat.add_0_r.
  - intros H. rewrite (IH (S i) j H).
    now replace (S i + j + 1) with (i + S j + 1) by lia.
Qed.

Lemma in_assignIds (n i : nat) (l : list Rule) (r : Rule) :
  In r l -> exists ident, In (setId r ident) (Build.assignIds n i l).
Proof.
  revert i; induction l as [|x l IH]; intros i; simpl; [tauto|].
  intros [-> | H]; [eauto|].
  destruct (IH (S i) H) as [ident Hid]. eauto.
Qed.

Lemma insertRule_perm (cmp : string -> string -> Z) (r : Rule) (l : list Rule) :
  Permutation (Build.insertRule cmp r l) (r :: l).
Proof.
  induction l as [|x l IH]; simpl; [auto|].
  destruct (cmp (title r) (title x) <=? 0)%Z; [auto|].
  rewrite IH. apply perm_swap.
Qed.

Lemma sortRules_perm (cmp : string -> string -> Z) (l : list Rule) :
  Permutation (Build.sortRules cmp l) l.
Proof.
  induction l as [|x l IH]; simpl; [auto|].
  rewrite insertRule_perm. now constructor.
Qed.

Section Sorting.

Variable cmp : string -> string -> Z.
Hypothesis cmp_ok : Consistent cmp.

Lemma cmp_total (a b : string) : (cmp a b <= 0)%Z \/ (cmp b a < 0)%Z.
Proof. pose proof (cmp_antisym cmp cmp_ok a b). lia. Qed.

Lemma insertRule_sorted (r : Rule) (l : list Rule) :
  StronglySorted (titleLe cmp) l -> StronglySorted (titleLe cmp) (Build.insertRule cmp r l).
Proof.
  induction 1 as [|x l Hs IH Hx]; simpl; [repeat constructor|].
  destruct (cmp (title r) (title x) <=? 0)%Z eqn:E.
  - apply Z.leb_le in E. constructor; [now constructor|].
    constructor; [exact E|].
    apply Forall_impl with (P := titleLe cmp x); [|exact Hx].
    intros y Hy. unfold titleLe in *. eapply (cmp_trans cmp cmp_ok); eauto.
  - apply Z.leb_gt in E. constructor; [exact IH|].
    apply (Permutation_Forall (Permutation_sym (insertRule_perm cmp r l))).
    constructor; [|exact Hx].
    unfold titleLe. destruct (cmp_total (title x) (title r)); lia.
Qed.

Lemma sortRules_sorted (l : list Rule) : StronglySorted (titleLe cmp) (Build.sortRules cmp l).
Proof.
  induction l as [|x l IH]; simpl; [constructor | now apply insertRule_sorted].
Qed.

Lemma insertRule_stable (t : string) (r : Rule) (l : list Rule) :
  filter (sameTitle cmp t) (Build.insertRule cmp r l) = filter (sameTitle cmp t) (r :: l).
Proof.
  induction l as [|x l IH]; simpl; [reflexivity|].
  destruct (cmp (title r) (title x) <=? 0)%Z eqn:E; [reflexivity|].
  apply Z.leb_gt in E. simpl. rewrite IH. simpl.
  destruct (sameTitle cmp t r) eqn:Er; [|reflexivity].
  destruct (sameTitle cmp t x) eqn:Ex; [|reflexivity].
  exfalso. unfold sameTitle in *. apply Z.eqb_eq in Er, Ex.
  pose proof (cmp_antisym cmp cmp_ok (title r) t) as Ha.
  assert (cmp (title r) (title x) <= 0)%Z
    by (apply (cmp_trans cmp cmp_ok) with (b := t); lia).
  lia.
Qed.

Lemma sortRules_stable (t : string) (l : list Rule) :
  filter (sameTitle cmp t) (Build.sortRules cmp l) = filter (sameTitle cmp t) l.
Proof.
  induction l as [|x l IH]; simpl; [reflexivity|].
  rewrite insertRule_stable. simpl. now rewrite IH.
Qed.

End Sorting.

Lemma codeCompare_consistent : Consistent codeCompare.
Proof.
  split; unfold codeCompare.
  - intros a b. pose proof (OrderedTypeEx.String_as_OT.cmp_antisym a b) as H.
    unfold OrderedTypeEx.String_as_OT.cmp in H. rewrite H.
    destruct (String.compare b a); reflexivity.
  - intros a b c.
    destruct (String.compare a b) eqn:Eab; try lia;
      destruct (String.compare b c) eqn:Ebc; try lia; intros _ _.
    + apply OrderedTypeEx.String_as_OT.cmp_eq in Eab, Ebc. subst.
      pose proof (proj2 (OrderedTypeEx.String_as_OT.cmp_eq c c) eq_refl) as Hcc.
      unfold OrderedTypeEx.String_as_OT.cmp in Hcc. now rewrite Hcc.
    + apply OrderedTypeEx.String_as_OT.cmp_eq in Eab. subst. now rewrite Ebc.
    + apply OrderedTypeEx.String_as_OT.cmp_eq in Ebc. subst. now rewrite Eab.
    + apply OrderedTypeEx.String_as_OT.cmp_lt in Eab, Ebc.
      pose proof (OrderedTypeEx.String_as_OT.lt_trans _ _ _ Eab Ebc) as Hac.
      apply OrderedTypeEx.String_as_OT.cmp_lt in Hac.
      unfold OrderedTypeEx.String_as_OT.cmp in Hac. now rewrite Hac.
Qed.

(** C2: for every section number, the builder takes the valid rules of the
    section in file order, sorts them by title with [localeCompare] (a sorted
    rearrangement that keeps rules of equal title in their order) and gives
    the rule at position [i] of the sorted list the id
    [<section>.<i + 1>].  Two valid rules of section 3 titled
    [Zebra Index] and [Avoid Bloat] get 3.2 and 3.1, in whichever order their
    files come. *)
Theorem C2_ids_follow_title_order (localeCompare : string -> string -> Z)
    (rules : list Rule) (n : nat) :
  Consistent localeCompare ->
  let sectionRules := filter (fun r => section r =? n) rules in
  let sorted := Build.sortRules localeCompare sectionRules in
  let numbered := Build.rulesOf (Build.groupAndAssign localeCompare rules) n in
  numbered = Build.assignIds n 0 sorted /\
  (forall i r, nth_error sorted i = Some r ->
     nth_error numbered i = Some (setId r (JS.ofNat n ++ "." ++ JS.ofNat (i + 1)))) /\
  Permutation sorted sectionRules /\
  StronglySorted (titleLe localeCompare) sorted /\
  (forall t, filter (sameTitle localeCompare t) sorted
             = filter (sameTitle localeCompare t) sectionRules) /\
  ((localeCompare "Avoid Bloat" "Zebra Index" < 0)%Z ->
   forall ra rz,
     title ra = "Avoid Bloat" -> section ra = 3 ->
     title rz = "Zebra Index" -> section rz = 3 ->
     forall files, files = [rz; ra] \/ files = [ra; rz] ->
       List.map (fun r => (title r, id r))
         (Build.rulesOf (Build.groupAndAssign localeCompare files) 3)
       = [("Avoid Bloat", Some "3.1"); ("Zebra Index", Some "3.2")]).
Proof.
  intros Hc sectionRules sorted numbered.
  assert (Hnum : numbered = Build.assignIds n 0 sorted)
    by apply rulesOf_groupAndAssign.
  split; [exact Hnum|]. split; [|split; [|split; [|split]]].
  - intros i r Hi. rewrite Hnum. now apply nth_error_assignIds.
  - apply sortRules_perm.
  - now apply sortRules_sorted.
  - intros t. now apply sortRules_stable.
  - intros Hlt ra rz Hta Hsa Htz Hsz files Hfiles.
    pose proof (cmp_antisym localeCompare Hc "Zebra Index" "Avoid Bloat") as Hanti.
    rewrite rulesOf_groupAndAssign.
    destruct Hfiles as [-> | ->]; simpl; rewrite Hsa, Hsz; simpl; rewrite Hta, Htz.
    + destruct (localeCompare "Zebra Index" "Avoid Bloat" <=? 0)%Z eqn:E;
        [apply Z.leb_le in E; lia|].
      simpl. now rewrite Hta, Htz.
    + destruct (localeCompare "Avoid Bloat" "Zebra Index" <=? 0)%Z eqn:E;
        [|apply Z.leb_gt in E; lia].
      simpl. now rewrite Hta, Htz.
Qed.

(** C2 at the two sample rules of section 3, under the order of character
    codes. *)
Lemma C2_ids_follow_title_order_witness :
  List.map (fun r => (title r, id r))
    (Build.rulesOf (Build.groupAndAssign codeCompare [Sample.zebra; Sample.avoid]) 3)
  = [("Avoid Bloat", Some "3.1"); ("Zebra Index", Some "3.2")].
Proof.
  pose proof (C2_ids_follow_title_order codeCompare [Sample.zebra; Sample.avoid] 3
                codeCompare_consistent) as H.
  cbv zeta in H. destruct H as (_ & _ & _ & _ & _ & H).
  apply (H eq_refl Sample.avoid Sample.zebra eq_refl eq_refl eq_refl eq_refl).
  left. reflexivity.
Defined.

(** ** Files that pass validation *)

Lemma collectRule_keeps (parseRuleFile : string -> ParseResult) (rules : list Rule)
    (file : string) (r : Rule) :
  In r rules -> In r (Build.collectRule parseRuleFile rules file).
Proof.
  intros H. unfold Build.collectRule.
  destruct (negb (valid (Validate.validateRuleFile parseRuleFile file))); [exact H|].
  destruct (success (parseRuleFile file)); [|exact H].
  destruct (rule (parseRuleFile file)); [|exact H].
  apply in_or_app. now left.
Qed.

Lemma collect_keeps (parseRuleFile : string -> ParseResult) (files : list string)
    (rules : list Rule) (r : Rule) :
  In r rules -> In r (fold_left (Build.collectRule parseRuleFile) files rules).
Proof.
  revert rules; induction files as [|file files IH]; intros rules H; simpl; [exact H|].
  apply IH. now apply collectRule_keeps.
Qed.

(** The builder collects the rule of every file that passes validation. *)
Lemma collect_valid (parseRuleFile : string -> ParseResult) (files : list string)
    (rules : list Rule) (file : string) (r : Rule) :
  In file files ->
  valid (Validate.validateRuleFile parseRuleFile file) = true ->
  success (parseRuleFile file) = true ->
  rule (parseRuleFile file) = Some r ->
  In r (fold_left (Build.collectRule parseRuleFile) files rules).
Proof.
  intros Hin Hv Hs Hr. revert rules.
  induction files as [|x files IH]; intros rules; simpl; [destruct Hin|].
  destruct Hin as [-> | Hin]; [|now apply IH].
  apply collect_keeps. unfold Build.collectRule. rewrite Hv, Hs, Hr. simpl.
  apply in_or_app. right. now left.
Qed.

Lemma extractExample_keeps (rid : string) (r : Rule) (acc : list TestCase)
    (e : CodeExample) (tc : TestCase) :
  In tc acc -> In tc (ExtractTests.extractExample rid r acc e).
Proof.
  intros H. unfold ExtractTests.extractExample.
  destruct (JS.falsy (code e) || (String.length (JS.trim (code e)) =? 0)); [exact H|].
  destruct (ExtractTests.classify (label e)); [|exact H].
  apply in_or_app. now left.
Qed.

Lemma extractExamples_keeps (rid : string) (r : Rule) (l : list CodeExample)
    (acc : list TestCase) (tc : TestCase) :
  In tc acc -> In tc (fold_left (ExtractTests.extractExample rid r) l acc).
Proof.
  revert acc; induction l as [|e l IH]; intros acc H; simpl; [exact H|].
  apply IH. now apply extractExample_keeps.
Qed.

Lemma extractExamples_adds (rid : string) (r : Rule) (l : list CodeExample)
    (acc : list TestCase) (e : CodeExample) (ty : CaseType) :
  In e l ->
  JS.falsy (code e) || (String.length (JS.trim (code e)) =? 0) = false ->
  ExtractTests.classify (label e) = Some ty ->
  In (testCaseOf rid r e ty) (fold_left (ExtractTests.extractExample rid r) l acc).
Proof.
  intros Hin Hcode Hty. revert acc.
  induction l as [|x l IH]; intros acc; simpl; [destruct Hin|].
  destruct Hin as [-> | Hin]; [|now apply IH].
  apply extractExamples_keeps. unfold ExtractTests.extractExample.
  rewrite Hcode, Hty. apply in_or_app. right. now left.
Qed.

Lemma extractFile_keeps (parseRuleFile : string -> ParseResult)
    (st : ExtractTests.State) (file : string) (tc : TestCase) :
  In tc (ExtractTests.testCases st) ->
  In tc (ExtractTests.testCases (ExtractTests.extractFile parseRuleFile st file)).
Proof.
  intros H. unfold ExtractTests.extractFile.
  destruct (negb (valid (Validate.validateRuleFile parseRuleFile file))); [exact H|].
  destruct (success (parseRuleFile file)); [|exact H].
  destruct (rule (parseRuleFile file)); [|exact H].
  simpl. now apply extractExamples_keeps.
Qed.

Lemma extract_keeps (parseRuleFile : string -> ParseResult) (files : list string)
    (st : ExtractTests.State) (tc : TestCase) :
  In tc (ExtractTests.testCases st) ->
  In tc (ExtractTests.testCases (fold_left (ExtractTests.extractFile parseRuleFile) files st)).
Proof.
  revert st; induction files as [|file files IH]; intros st H; simpl; [exact H|].
  apply IH. now apply extractFile_keeps.
Qed.

(** The extractor gives one rule id to the examples of a file that passes
    validation and emits a test case for each of them that has code and a
    class. *)
Lemma extract_valid (parseRuleFile : string -> ParseResult) (files : list string)
    (st : ExtractTests.State) (file : string) (r : Rule) :
  In file files ->
  valid (Validate.validateRuleFile parseRuleFile file) = true ->
  success (parseRuleFile file) = true ->
  rule (parseRuleFile file) = Some r ->
  exists rid, forall e ty,
    In e (examples r) ->
    JS.falsy (code e) || (String.length (JS.trim (code e)) =? 0) = false ->
    ExtractTests.classify (label e) = Some ty ->
    In (testCaseOf rid r e ty)
       (ExtractTests.testCases
          (fold_left (ExtractTests.extractFile parseRuleFile) files st)).
Proof.
  intros Hin Hv Hs Hr. revert st.
  induction files as [|x files IH]; intros st; simpl; [destruct Hin|].
  destruct Hin as [-> | Hin]; [|now apply IH].
  eexists. intros e ty He Hcode Hty. apply extract_keeps.
  unfold ExtractTests.extractFile. rewrite Hv, Hs, Hr. simpl.
  now apply extractExamples_adds.
Qed.

(** C6: a validation result is valid if and only if its error list is
    empty, whatever its warnings; and a file of the directory whose error
    list is empty has its rule collected, numbered in its section by the
    builder and drawn on by the extractor, whatever its warnings.  The parser
    is taken to report an error whenever it fails. *)
Theorem C6_valid_iff_no_errors (parseRuleFile : string -> ParseResult)
    (RULES_DIR : string) (localeCompare : string -> string -> Z) :
  (forall file, reportsFailure (parseRuleFile file)) ->
  forall f,
    let file := Path.join RULES_DIR f in
    let v := Validate.validateRuleFile parseRuleFile file in
    (valid v = true <-> errors v = []) /\
    (errors v = [] ->
     forall listing, In f listing -> isRuleFileName f = true ->
       let rules :=
         fold_left (Build.collectRule parseRuleFile) (Build.ruleFiles RULES_DIR listing) [] in
       exists r,
         rule (parseRuleFile file) = Some r /\
         In r rules /\
         (exists ident,
             In (setId r ident)
                (Build.rulesOf (Build.groupAndAssign localeCompare rules) (section r))) /\
         (exists rid, forall e ty,
             In e (examples r) ->
             JS.falsy (code e) || (String.length (JS.trim (code e)) =? 0) = false ->
             ExtractTests.classify (label e) = Some ty ->
             In (testCaseOf rid r e ty)
                (ExtractTests.extractTestCases parseRuleFile RULES_DIR listing))).
Proof.
  intros Hparser f file v.
  assert (Hiff : valid v = true <-> errors v = []).
  { split.
    - intros Hv. destruct (valid_inv parseRuleFile file Hv) as (r & _ & _ & He). exact He.
    - intros He. unfold v in *.
      destruct (success (parseRuleFile file)) eqn:Hs;
        [destruct (rule (parseRuleFile file)) as [r|] eqn:Hr|].
      + rewrite (validateRuleFile_parsed _ _ r Hs Hr) in *. simpl in *.
        now rewrite He.
      + rewrite validateRuleFile_unparsed in He by auto. simpl in He.
        exfalso. apply (Hparser file); auto.
      + rewrite validateRuleFile_unparsed in He by auto. simpl in He.
        exfalso. apply (Hparser file); auto. }
  split; [exact Hiff|].
  intros He listing Hin Hname rules.
  apply Hiff in He.
  destruct (valid_inv parseRuleFile file He) as (r & Hs & Hr & _).
  assert (Hfile : In file (List.map (Path.join RULES_DIR) (filter isRuleFileName listing))).
  { apply in_map. now apply filter_In. }
  assert (Hrules : In r rules)
    by (unfold rules; now apply (collect_valid parseRuleFile _ [] file r)).
  exists r. split; [exact Hr|]. split; [exact Hrules|]. split.
  - rewrite rulesOf_groupAndAssign. apply in_assignIds.
    apply (Permutation_in _ (Permutation_sym (sortRules_perm localeCompare _))).
    apply filter_In. split; [exact Hrules | apply Nat.eqb_refl].
  - unfold ExtractTests.extractTestCases.
    now apply (extract_valid parseRuleFile _ _ file r).
Qed.

Lemma parserOf_reportsFailure (files : list (string * ParseResult)) :
  Forall (fun e => reportsFailure (snd e)) files ->
  forall file, reportsFailure (Sample.parserOf files file).
Proof.
  intros Hall file. unfold Sample.parserOf.
  destruct (find (fun e => (fst e =? file)%string) files) as [e|] eqn:E.
  - apply find_some in E. rewrite Forall_forall in Hall. now apply Hall.
  - intros _ H. discriminate H.
Qed.

(** C6 at a rule that draws four warnings and no error. *)
Lemma C6_valid_iff_no_errors_witness :
  let parse := Sample.parserOf [("rules/query-star.md", parsed Sample.flagged)] in
  let v := Validate.validateRuleFile parse (Path.join Sample.dir "query-star.md") in
  List.length (warnings v) = 4 /\ (valid v = true <-> errors v = []).
Proof.
  assert (Hparser : Forall (fun e => reportsFailure (snd e))
                      [("rules/query-star.md", parsed Sample.flagged)]).
  { repeat constructor. intros [H | H]; discriminate H. }
  pose proof (C6_valid_iff_no_errors
                (Sample.parserOf [("rules/query-star.md", parsed Sample.flagged)])
                Sample.dir codeCompare (parserOf_reportsFailure _ Hparser)
                "query-star.md") as H.
  cbv zeta in H. destruct H as [Hiff _].
  split; [reflexivity | exact Hiff].
Defined.

(** ** The label checks *)

Lemma isBadExample_keywords (label : string) :
  Validate.isBadExample label = containsKeyword badKeywords label /\
  ExtractTests.isBadExample label = containsKeyword badKeywords label.
Proof.
  unfold Validate.isBadExample, ExtractTests.isBadExample, containsKeyword, badKeywords.
  cbn [existsb]. now rewrite orb_false_r, orb_assoc.
Qed.

Lemma isGoodExample_keywords (label : string) :
  Validate.isGoodExample label = containsKeyword goodKeywords label /\
  ExtractTests.isGoodExample label = containsKeyword goodKeywords label.
Proof.
  unfold Validate.isGoodExample, ExtractTests.isGoodExample, containsKeyword, goodKeywords.
  cbn [existsb]. now rewrite orb_false_r, !orb_assoc.
Qed.

(** A label with the keyword [incorrect] has the keyword [correct]. *)
Lemma incorrect_includes_correct (s : string) :
  JS.includes s "incorrect" = true -> JS.includes s "correct" = true.
Proof.
  rewrite !includes_iff. intros [a [b ->]].
  exists (a ++ "in"), b. induction a as [|c a IH]; simpl in *; congruence.
Qed.

(** What the bad/good branch of the validator pushes, by what its two
    independent checks find among the examples. *)
Lemma validateBadGood_cases (hasBad hasGood : bool) (d : Validate.Diag) :
  Validate.validateBadGood hasBad hasGood d =
    match hasBad, hasGood with
    | false, false => Validate.pushError Validate.msgMissingBadGood d
    | false, true => Validate.pushWarning Validate.msgMissingBad d
    | true, false => Validate.pushError Validate.msgMissingGood d
    | true, true => d
    end.
Proof. destruct hasBad, hasGood; reflexivity. Qed.

(** C4 (where the validator departs from it): the rule whose one example is
    labelled [Incorrect] has an example that classifies as bad and none that
    classifies as good, and yet validation reports no error for the missing
    good example: the good check of the validator finds the keyword
    [correct] inside [incorrect].  The first two cases of the claim hold
    for every rule. *)
Theorem C4_only_incorrect_example_passes :
  let r := Sample.onlyIncorrect "Incorrect" in
  let parse := Sample.parserOf [("rules/query-index.md", parsed r)] in
  (forall (r' : Rule) (d : Validate.Diag),
      let hasBad := JS.some (fun e => Validate.isBadExample (label e)) (examples r') in
      let hasGood := JS.some (fun e => Validate.isGoodExample (label e)) (examples r') in
      (hasBad = false -> hasGood = false ->
       Validate.validateBadGood hasBad hasGood d
       = Validate.pushError Validate.msgMissingBadGood d) /\
      (hasBad = false -> hasGood = true ->
       Validate.validateBadGood hasBad hasGood d
       = Validate.pushWarning Validate.msgMissingBad d)) /\
  List.map (fun e => ExtractTests.classify (label e)) (examples r) = [Some bad] /\
  JS.some (fun e => Validate.isGoodExample (label e)) (examples r) = true /\
  Validate.validateRuleFile parse "rules/query-index.md" = mkValidationResult true [] [].
Proof.
  cbv zeta. split; [|repeat split].
  intros r' d. split; intros -> ->; reflexivity.
Qed.

(** C7 (where the validator departs from it): a label that contains a bad
    and a good keyword is classified as bad by the extractor, whose bad check
    comes first; the validator runs its two checks independently, so the
    label counts for it as a bad example and as a good example.  At the
    label [Incorrect Example], the rule whose one example carries it passes
    validation with no missing-good-example error. *)
Theorem C7_both_keywords_count_twice :
  (forall label,
      containsKeyword badKeywords label = true ->
      containsKeyword goodKeywords label = true ->
      ExtractTests.classify label = Some bad /\
      Validate.isBadExample label = true /\
      Validate.isGoodExample label = true /\
      forall d, Validate.validateBadGood (Validate.isBadExample label)
                  (Validate.isGoodExample label) d = d) /\
  (forall label,
      containsKeyword badKeywords label = true -> ExtractTests.classify label = Some bad) /\
  containsKeyword badKeywords "Incorrect Example" = true /\
  containsKeyword goodKeywords "Incorrect Example" = true /\
  ExtractTests.classify "Incorrect Example" = Some bad /\
  Validate.validateRuleFile
    (Sample.parserOf [("rules/query-index.md",
                       parsed (Sample.onlyIncorrect "Incorrect Example"))])
    "rules/query-index.md" = mkValidationResult true [] [].
Proof.
  assert (Hbad : forall label, containsKeyword badKeywords label = true ->
                               ExtractTests.classify label = Some bad).
  { intros label Hb. unfold ExtractTests.classify.
    now rewrite (proj2 (isBadExample_keywords label)), Hb. }
  split; [|split; [exact Hbad | repeat split]].
  intros label Hb Hg.
  rewrite (proj1 (isBadExample_keywords label)), (proj1 (isGoodExample_keywords label)).
  rewrite Hb, Hg. repeat split. now apply Hbad.
Qed.

(** ** Rule ids in the two outputs *)

(** C1 (where the extractor departs from it): on two valid rules of section
    3 whose files come in the order [Zebra Index], [Avoid Bloat], the
    extractor numbers the rules in file order (3.1 for [Zebra Index]) while
    the builder numbers them in title order (3.2 for [Zebra Index]), so the
    rule ids of the test cases are not those of the rendered document.
    [localeCompare] is any consistent comparator that puts [Avoid Bloat]
    first. *)
Theorem C1_extractor_ids_follow_file_order (localeCompare : string -> string -> Z) :
  Consistent localeCompare ->
  (localeCompare "Avoid Bloat" "Zebra Index" < 0)%Z ->
  let listing := ["schema-a.md"; "schema-b.md"] in
  let rules :=
    fold_left (Build.collectRule Sample.schemaFiles) (Build.ruleFiles Sample.dir listing) [] in
  let rulesBySection := Build.groupAndAssign localeCompare rules in
  List.map title rules = ["Zebra Index"; "Avoid Bloat"] /\
  List.map (fun tc => (ruleTitle tc, ruleId tc))
    (ExtractTests.extractTestCases Sample.schemaFiles Sample.dir listing)
  = [("Zebra Index", "3.1"); ("Zebra Index", "3.1");
     ("Avoid Bloat", "3.2"); ("Avoid Bloat", "3.2")] /\
  List.map (fun r => (title r, id r)) (Build.rulesOf rulesBySection 3)
  = [("Avoid Bloat", Some "3.1"); ("Zebra Index", Some "3.2")] /\
  Build.renderTocSection rulesBySection
    (mkSection 3 "Schema Design" "schema" "HIGH"
       "Table design, indexes, partitioning, data types")
  = ["3. [Schema Design](#schema-design) - **HIGH**";
     "   - 3.1 [Avoid Bloat](#31-avoid-bloat)";
     "   - 3.2 [Zebra Index](#32-zebra-index)";
     EmptyString].
Proof.
  intros Hc Hlt listing rules rulesBySection.
  pose proof (cmp_antisym localeCompare Hc "Zebra Index" "Avoid Bloat") as Hanti.
  assert (Hrules : rules = [Sample.zebra; Sample.avoid]) by reflexivity.
  assert (Hsection : Build.rulesOf rulesBySection 3
                     = [setId Sample.avoid "3.1"; setId Sample.zebra "3.2"]).
  { unfold rulesBySection. rewrite rulesOf_groupAndAssign, Hrules.
    cbn [filter section Sample.zebra Sample.avoid Sample.ruleOf Nat.eqb].
    cbn [Build.sortRules fold_right Build.insertRule].
    change (title Sample.zebra) with "Zebra Index".
    change (title Sample.avoid) with "Avoid Bloat".
    destruct (localeCompare "Zebra Index" "Avoid Bloat" <=? 0)%Z eqn:E;
      [apply Z.leb_le in E; lia | reflexivity]. }
  split; [now rewrite Hrules|]. split; [reflexivity|].
  split; [now rewrite Hsection|].
  unfold Build.renderTocSection. cbn [number]. rewrite Hsection. reflexivity.
Qed.

(** C1's run under the order of character codes. *)
Lemma C1_extractor_ids_follow_file_order_witness :
  List.map (fun tc => (ruleTitle tc, ruleId tc))
    (ExtractTests.extractTestCases Sample.schemaFiles Sample.dir
       ["schema-a.md"; "schema-b.md"])
  = [("Zebra Index", "3.1"); ("Zebra Index", "3.1");
     ("Avoid Bloat", "3.2"); ("Avoid Bloat", "3.2")] /\
  List.map (fun r => (title r, id r))
    (Build.rulesOf
       (Build.groupAndAssign codeCompare
          (fold_left (Build.collectRule Sample.schemaFiles)
             (Build.ruleFiles Sample.dir ["schema-a.md"; "schema-b.md"]) [])) 3)
  = [("Avoid Bloat", Some "3.1"); ("Zebra Index", Some "3.2")].
Proof.
  pose proof (C1_extractor_ids_follow_file_order codeCompare
                codeCompare_consistent eq_refl) as H.
  cbv zeta in H. destruct H as (_ & Hx & Hb & _).
  split; [exact Hx | exact Hb].
Defined.

(** ** What the rendered document depends on *)


Lemma ofNat_digits (n : nat) : allChars JS.isDigit (JS.ofNat n) = true.
Proof.
  unfold JS.ofNat. induction (Nat.to_uint n) as [|d IH|d IH|d IH|d IH|d IH|d IH|d IH|d IH|d IH|d IH];
    simpl; try exact IH; reflexivity.
Qed.

Lemma ofNat_injective (n m : nat) : JS.ofNat n = JS.ofNat m -> n = m.
Proof.
  unfold JS.ofNat. intros H. apply DecimalNat.Unsigned.to_uint_inj.
  apply (f_equal NilEmpty.uint_of_string) in H. rewrite !NilEmpty.usu in H.
  now injection H.
Qed.












(** ** The section list *)

(** C10: when the section file exists and the pattern matches at least
    once, [parseSections] returns the matched sections and nothing else,
    also when they are fewer than eight; the eight default sections are
    returned only when the file is absent or nothing matches.  A file with
    two well-formed sections and a heading the pattern does not match yields
    those two sections. *)
Theorem C10_partial_sections_are_kept :
  List.length Build.getDefaultSections = 8 /\
  Build.parseSections None = Build.getDefaultSections /\
  (forall content,
      let matched :=
        List.map Build.sectionOfMatch (RegExp.matchAll Build.sectionPattern content) in
      (matched = [] -> Build.parseSections (Some content) = Build.getDefaultSections) /\
      (matched <> [] ->
       Build.parseSections (Some content) = matched /\
       List.length (Build.parseSections (Some content))
       = List.length (RegExp.matchAll Build.sectionPattern content))) /\
  Build.parseSections (Some Sample.twoSections)
  = [ mkSection 1 "Query Performance" "query" "CRITICAL" "Slow queries, missing indexes";
      mkSection 2 "Connection Management" "conn" "MEDIUM-HIGH" "Pooling" ].
Proof.
  split; [reflexivity|]. split; [reflexivity|]. split; [|reflexivity].
  intros content matched.
  assert (Hlen : List.length matched
                 = List.length (RegExp.matchAll Build.sectionPattern content))
    by apply length_map.
  unfold Build.parseSections. fold matched. clearbody matched.
  destruct matched as [|s rest].
  - split; [reflexivity | congruence].
  - split; [discriminate|]. intros _. split; [reflexivity | exact Hlen].
Qed.

(** ** Anchors *)

Lemma anchorChar_plain (c : ascii) :
  anchorChar c = true ->
  JS.isUpper c = false /\ JS.isSpace c = false /\
  JS.isLower c || JS.isDigit c || JS.isSpace c || Ascii.eqb c "-" = true.
Proof.
  unfold anchorChar. destruct (Ascii.eqb_spec c "-") as [-> | Hne].
  - intros _. repeat split.
  - rewrite orb_false_r. intros H.
    assert (Hr : (97 <= nat_of_ascii c <= 122) \/ (48 <= nat_of_ascii c <= 57)).
    { apply orb_true_iff in H. unfold JS.isLower, JS.isDigit in H.
      rewrite !andb_true_iff, !Nat.leb_le in H. lia. }
    repeat split.
    + unfold JS.isUpper. apply andb_false_iff.
      rewrite !Nat.leb_gt. lia.
    + unfold JS.isSpace. cbv zeta. apply orb_false_iff. split.
      * apply andb_false_iff. rewrite !Nat.leb_gt. lia.
      * apply Nat.eqb_neq. lia.
    + rewrite H. reflexivity.
Qed.

Lemma hyphenate_chars (s : string) (inRun : bool) :
  allChars (fun c => JS.isLower c || JS.isDigit c || JS.isSpace c || Ascii.eqb c "-") s = true ->
  allChars anchorChar (Build.hyphenate inRun s) = true.
Proof.
  revert inRun; induction s as [|c s IH]; intros inRun; simpl; [reflexivity|].
  rewrite andb_true_iff. intros [Hc Hs].
  destruct (JS.isSpace c) eqn:Esp.
  - destruct inRun; simpl; auto.
  - simpl. rewrite IH by exact Hs. unfold anchorChar.
    rewrite orb_false_r in Hc. now rewrite Hc.
Qed.

Lemma stripNonAnchor_chars (s : string) :
  allChars (fun c => JS.isLower c || JS.isDigit c || JS.isSpace c || Ascii.eqb c "-")
           (Build.stripNonAnchor s) = true.
Proof.
  induction s as [|c s IH]; simpl; [reflexivity|].
  destruct (JS.isLower c || JS.isDigit c || JS.isSpace c || Ascii.eqb c "-") eqn:E;
    simpl; [now rewrite E|exact IH].
Qed.

Lemma anchor_fixed (s : string) :
  allChars anchorChar s = true ->
  JS.toLowerCase s = s /\ Build.stripNonAnchor s = s /\
  forall inRun, Build.hyphenate inRun s = s.
Proof.
  induction s as [|c s IH]; simpl; [auto|].
  rewrite andb_true_iff. intros [Hc Hs].
  destruct (anchorChar_plain c Hc) as (Hup & Hsp & Hkeep).
  destruct (IH Hs) as (Hl & Hst & Hh).
  unfold JS.lowerChar. rewrite Hup, Hkeep, Hsp, Hl, Hst.
  repeat split. intros inRun. now rewrite Hh.
Qed.

(** X1: an anchor holds lower-case letters, digits and hyphens only (no
    white space, no upper case, no punctuation), it is no longer than the
    text, and making an anchor of an anchor changes nothing. *)
Theorem toAnchor_is_anchor (text : string) :
  allChars anchorChar (Build.toAnchor text) = true /\
  String.length (Build.toAnchor text) <= String.length text /\
  Build.toAnchor (Build.toAnchor text) = Build.toAnchor text.
Proof.
  assert (Hchars : allChars anchorChar (Build.toAnchor text) = true)
    by (apply hyphenate_chars, stripNonAnchor_chars).
  split; [exact Hchars|]. split.
  - unfold Build.toAnchor.
    assert (Hh : forall s b, String.length (Build.hyphenate b s) <= String.length s).
    { induction s as [|c s IH]; intros b; simpl; [lia|].
      destruct (JS.isSpace c); [destruct b|]; simpl;
        [specialize (IH true) | specialize (IH true) | specialize (IH false)]; lia. }
    assert (Hs : forall s, String.length (Build.stripNonAnchor s) <= String.length s).
    { induction s as [|c s IH]; simpl; [lia|].
      destruct (JS.isLower c || JS.isDigit c || JS.isSpace c || Ascii.eqb c "-");
        simpl; lia. }
    assert (Hl : forall s, String.length (JS.toLowerCase s) = String.length s)
      by (induction s; simpl; congruence).
    specialize (Hh (Build.stripNonAnchor (JS.toLowerCase text)) false).
    specialize (Hs (JS.toLowerCase text)). rewrite Hl in Hs. lia.
  - destruct (anchor_fixed _ Hchars) as (Hl & Hst & Hh).
    unfold Build.toAnchor at 1. now rewrite Hl, Hst, Hh.
Qed.

(** ** What validity means *)

Lemma notBlank_iff (s : string) :
  JS.falsy s || (String.length (JS.trim s) =? 0) = false <-> notBlank s.
Proof.
  unfold notBlank, JS.falsy. rewrite orb_false_iff, String.eqb_neq, Nat.eqb_neq. split.
  - intros [_ Hlen] Htrim. apply Hlen. now rewrite Htrim.
  - intros Htrim. split.
    + intros ->. now apply Htrim.
    + destruct (JS.trim s); [congruence | discriminate].
Qed.

Lemma exampleHasCode_iff (e : CodeExample) :
  Validate.exampleHasCode e = true <-> notBlank (code e).
Proof.
  rewrite <- notBlank_iff. unfold Validate.exampleHasCode.
  destruct (JS.falsy (code e)); simpl; [split; discriminate|].
  destruct (String.length (JS.trim (code e))); unfold Nat.ltb; simpl; split; congruence.
Qed.

Lemma errs_validateTitle_nil (r : Rule) :
  Validate.errs (Validate.validateTitle r nilDiag) = [] <-> notBlank (title r).
Proof.
  rewrite <- notBlank_iff. unfold Validate.validateTitle.
  destruct (JS.falsy (title r) || (String.length (JS.trim (title r)) =? 0));
    simpl; split; congruence.
Qed.

Lemma errs_validateExplanation_nil (r : Rule) :
  Validate.errs (Validate.validateExplanation r nilDiag) = [] <-> notBlank (explanation r).
Proof.
  rewrite <- notBlank_iff. unfold Validate.validateExplanation.
  destruct (JS.falsy (explanation r) || (String.length (JS.trim (explanation r)) =? 0));
    [|destruct (String.length (explanation r) <? 50)]; simpl; split; congruence.
Qed.

Lemma errs_validateExamples_nil (r : Rule) :
  Validate.errs (Validate.validateExamples r nilDiag) = [] <->
  examples r <> [] /\
  JS.some (fun e => Validate.isGoodExample (label e)) (examples r) = true /\
  JS.some Validate.exampleHasCode (examples r) = true.
Proof.
  unfold Validate.validateExamples, Validate.validateCode, Validate.validateBadGood.
  destruct (examples r) as [|e l] eqn:E.
  - cbn. split; [intros H; discriminate H | intros [H _]; congruence].
  - change (List.length (e :: l) =? 0) with false. cbv iota.
    rewrite errs_validateLanguage.
    destruct (JS.some Validate.exampleHasCode (e :: l));
      destruct (JS.some (fun e => Validate.isBadExample (label e)) (e :: l));
      destruct (JS.some (fun e => Validate.isGoodExample (label e)) (e :: l));
      simpl; intuition congruence.
Qed.

Lemma errs_validateImpact_nil (r : Rule) :
  Validate.errs (Validate.validateImpact r nilDiag) = [] <-> In (impact r) Config.IMPACT_LEVELS.
Proof.
  rewrite <- isImpactLevel_iff. unfold Validate.validateImpact.
  destruct (Config.isImpactLevel (impact r)); simpl; split; congruence.
Qed.

(** The validator adds no error exactly for a well-formed rule. *)
Lemma ruleErrors_nil (r : Rule) :
  ruleErrors r = [] <->
  notBlank (title r) /\ notBlank (explanation r) /\ examples r <> [] /\
  (exists e, In e (examples r) /\ Validate.isGoodExample (label e) = true) /\
  (exists e, In e (examples r) /\ notBlank (code e)) /\
  In (impact r) Config.IMPACT_LEVELS.
Proof.
  rewrite ruleErrors_split, errs_validateImpactDescription, app_nil_r.
  rewrite <- errs_validateTitle_nil, <- errs_validateExplanation_nil,
    <- errs_validateImpact_nil.
  assert (Hex : Validate.errs (Validate.validateExamples r nilDiag) = [] <->
                examples r <> [] /\
                (exists e, In e (examples r) /\ Validate.isGoodExample (label e) = true) /\
                (exists e, In e (examples r) /\ notBlank (code e))).
  { rewrite errs_validateExamples_nil. unfold JS.some. rewrite !existsb_exists.
    split; intros (H1 & H2 & [e [He Hc]]); (split; [exact H1|]); (split; [exact H2|]);
      exists e; (split; [exact He|]); now apply exampleHasCode_iff. }
  rewrite <- and_assoc in Hex.
  split.
  - intros H. apply app_eq_nil in H. destruct H as [Ht H].
    apply app_eq_nil in H. destruct H as [Hx H].
    apply app_eq_nil in H. destruct H as [He Hi].
    apply Hex in He. tauto.
  - intros (Ht & Hx & H1 & H2 & H3 & Hi).
    rewrite Ht, Hx, Hi, (proj2 Hex) by tauto. reflexivity.
Qed.

(** X3: a validation result is valid exactly when the file parsed into a
    rule without parser errors, the title and the explanation are not blank,
    there is an example, some label has a good keyword, some example has code
    that is not blank, and the impact is one of the six levels.  Nothing else
    is required: not a bad example, not a language tag, not an impact
    description, not a long explanation. *)
Theorem valid_exactly_when (parseRuleFile : string -> ParseResult) (file : string) :
  valid (Validate.validateRuleFile parseRuleFile file) = true <->
  success (parseRuleFile file) = true /\
  parseErrors (parseRuleFile file) = [] /\
  exists r,
    rule (parseRuleFile file) = Some r /\
    notBlank (title r) /\ notBlank (explanation r) /\ examples r <> [] /\
    (exists e, In e (examples r) /\ Validate.isGoodExample (label e) = true) /\
    (exists e, In e (examples r) /\ notBlank (code e)) /\
    In (impact r) Config.IMPACT_LEVELS.
Proof.
  split.
  - intros Hv. destruct (valid_inv parseRuleFile file Hv) as (r & Hs & Hr & He).
    rewrite (validateRuleFile_parsed _ _ r Hs Hr) in He. simpl in He.
    apply app_eq_nil in He. destruct He as [Hp He].
    split; [exact Hs|]. split; [exact Hp|]. exists r. split; [exact Hr|].
    now apply ruleErrors_nil.
  - intros (Hs & Hp & r & Hr & Hok).
    rewrite (validateRuleFile_parsed _ _ r Hs Hr). simpl.
    now rewrite Hp, (proj2 (ruleErrors_nil r) Hok).
Qed.

(** ** What the validator adds to the diagnostics of the parser *)

Lemma warns_validateLanguage_length (l : list CodeExample) (d : Validate.Diag) :
  List.length (Validate.warns (fold_left Validate.validateLanguage l d))
  <= List.length (Validate.warns d) + List.length l.
Proof.
  revert d; induction l as [|e l IH]; intros d; simpl; [lia|].
  specialize (IH (Validate.validateLanguage d e)).
  unfold Validate.validateLanguage in *.
  destruct (negb (JS.falsy (code e)) && JS.falsyOpt (language e)); simpl in *;
    rewrite ?length_app in IH; simpl in IH; lia.
Qed.

Lemma ruleErrors_length (r : Rule) : List.length (ruleErrors r) <= 5.
Proof.
  rewrite ruleErrors_split, errs_validateImpactDescription, !length_app.
  assert (List.length (Validate.errs (Validate.validateTitle r nilDiag)) <= 1).
  { unfold Validate.validateTitle.
    destruct (JS.falsy (title r) || (String.length (JS.trim (title r)) =? 0)); simpl; lia. }
  assert (List.length (Validate.errs (Validate.validateExplanation r nilDiag)) <= 1).
  { unfold Validate.validateExplanation.
    destruct (JS.falsy (explanation r) || (String.length (JS.trim (explanation r)) =? 0));
      [|destruct (String.length (explanation r) <? 50)]; simpl; lia. }
  assert (List.length (Validate.errs (Validate.validateExamples r nilDiag)) <= 2).
  { unfold Validate.validateExamples, Validate.validateCode, Validate.validateBadGood.
    destruct (List.length (examples r) =? 0); [simpl; lia|].
    rewrite errs_validateLanguage.
    destruct (JS.some Validate.exampleHasCode (examples r));
      destruct (JS.some (fun e => Validate.isBadExample (label e)) (examples r));
      destruct (JS.some (fun e => Validate.isGoodExample (label e)) (examples r));
      simpl; lia. }
  assert (List.length (Validate.errs (Validate.validateImpact r nilDiag)) <= 1).
  { unfold Validate.validateImpact.
    destruct (negb (Config.isImpactLevel (impact r))); simpl; lia. }
  simpl. lia.
Qed.

Lemma ruleWarnings_length (r : Rule) :
  List.length (ruleWarnings r) <= List.length (examples r) + 3.
Proof.
  rewrite ruleWarnings_split, !length_app.
  assert (List.length (Validate.warns (Validate.validateTitle r nilDiag)) = 0).
  { unfold Validate.validateTitle.
    destruct (JS.falsy (title r) || (String.length (JS.trim (title r)) =? 0)); reflexivity. }
  assert (List.length (Validate.warns (Validate.validateExplanation r nilDiag)) <= 1).
  { unfold Validate.validateExplanation.
    destruct (JS.falsy (explanation r) || (String.length (JS.trim (explanation r)) =? 0));
      [|destruct (String.length (explanation r) <? 50)]; simpl; lia. }
  assert (List.length (Validate.warns (Validate.validateExamples r nilDiag))
          <= List.length (examples r) + 1).
  { unfold Validate.validateExamples.
    destruct (List.length (examples r) =? 0); [simpl; lia|].
    etransitivity; [apply warns_validateLanguage_length|].
    unfold Validate.validateCode, Validate.validateBadGood.
    destruct (JS.some Validate.exampleHasCode (examples r));
      destruct (JS.some (fun e => Validate.isBadExample (label e)) (examples r));
      destruct (JS.some (fun e => Validate.isGoodExample (label e)) (examples r));
      simpl; lia. }
  assert (List.length (Validate.warns (Validate.validateImpact r nilDiag)) = 0).
  { unfold Validate.validateImpact.
    destruct (negb (Config.isImpactLevel (impact r))); reflexivity. }
  assert (List.length (Validate.warns (Validate.validateImpactDescription r nilDiag)) <= 1).
  { unfold Validate.validateImpactDescription.
    destruct (JS.falsyOpt (impactDescription r)); simpl; lia. }
  lia.
Qed.

(** X2: the errors and the warnings of a validation result start with
    those of the parser, unchanged and in order.  When the parse failed
    nothing is added and the result is not valid; when it succeeded the
    validator adds at most five errors and at most three warnings more than
    the rule has examples. *)
Theorem validateRuleFile_extends_parser (parseRuleFile : string -> ParseResult)
    (file : string) :
  let p := parseRuleFile file in
  let v := Validate.validateRuleFile parseRuleFile file in
  exists added_errors added_warnings,
    errors v = (parseErrors p ++ added_errors)%list /\
    warnings v = (parseWarnings p ++ added_warnings)%list /\
    List.length added_errors <= 5 /\
    (success p = false \/ rule p = None ->
     added_errors = [] /\ added_warnings = [] /\ valid v = false) /\
    (forall r, success p = true -> rule p = Some r ->
       List.length added_warnings <= List.length (examples r) + 3).
Proof.
  intros p v. unfold p, v.
  destruct (success (parseRuleFile file)) eqn:Hs;
    [destruct (rule (parseRuleFile file)) as [r|] eqn:Hr|].
  - exists (ruleErrors r), (ruleWarnings r).
    rewrite (validateRuleFile_parsed _ _ r Hs Hr). simpl.
    repeat split; try apply ruleErrors_length;
      try (destruct H as [H | H]; discriminate H).
    intros r' _ [= <-]. apply ruleWarnings_length.
  - exists [], []. rewrite validateRuleFile_unparsed by auto. simpl.
    rewrite !app_nil_r. repeat split; lia.
  - exists [], []. rewrite validateRuleFile_unparsed by auto. simpl.
    rewrite !app_nil_r. repeat split; lia.
Qed.

(** ** The summary of [validateAllRules] *)

Lemma validateStep_fold (parseRuleFile : string -> ParseResult) (files : list string)
    (acc : Validate.Summary) :
  let validb file := valid (Validate.validateRuleFile parseRuleFile file) in
  let s := fold_left (Validate.validateStep parseRuleFile) files acc in
  Validate.totalFiles s = Validate.totalFiles acc /\
  Validate.validFiles s = Validate.validFiles acc + List.length (filter validb files) /\
  Validate.invalidFiles s
  = Validate.invalidFiles acc + List.length (filter (fun f => negb (validb f)) files).
Proof.
  intros validb. revert acc. induction files as [|file files IH]; intros acc; simpl.
  - repeat split; lia.
  - destruct (IH (Validate.validateStep parseRuleFile acc file)) as (Ht & Hv & Hi).
    rewrite Ht, Hv, Hi. unfold Validate.validateStep. fold (validb file).
    destruct (validb file); simpl; repeat split; lia.
Qed.

(** X4: [validateAllRules] counts every processed file once, as valid or
    as invalid: the two counters add up to [totalFiles], which is the number
    of files that pass the name test, and [validFiles] is the number of them
    whose validation result is valid. *)
Theorem validateAllRules_counts (parseRuleFile : string -> ParseResult)
    (RULES_DIR : string) (listing : list string) :
  let s := Validate.validateAllRules parseRuleFile RULES_DIR listing in
  let files := Validate.ruleFiles RULES_DIR listing in
  Validate.totalFiles s = List.length (filter isRuleFileName listing) /\
  Validate.validFiles s
  = List.length (filter (fun f => valid (Validate.validateRuleFile parseRuleFile f)) files) /\
  Validate.validFiles s + Validate.invalidFiles s = Validate.totalFiles s /\
  List.length (Validate.results s) <= Validate.totalFiles s.
Proof.
  intros s files. unfold s, Validate.validateAllRules. fold files.
  destruct (validateStep_fold parseRuleFile files
              (Validate.mkSummary (List.length files) 0 0 [])) as (Ht & Hv & Hi).
  cbv zeta in Ht, Hv, Hi. simpl in Ht, Hv, Hi.
  rewrite Ht, Hv, Hi.
  split; [unfold files, Validate.ruleFiles; apply length_map|].
  split; [reflexivity|]. split.
  - clear. induction files as [|f files IH]; simpl; [reflexivity|].
    destruct (valid (Validate.validateRuleFile parseRuleFile f)); simpl; lia.
  - clear.
    assert (H : forall fs acc,
               List.length (Validate.results
                  (fold_left (Validate.validateStep parseRuleFile) fs acc))
               <= List.length (Validate.results acc) + List.length fs).
    { induction fs as [|f fs IH]; intros acc; simpl; [lia|].
      specialize (IH (Validate.validateStep parseRuleFile acc f)).
      assert (Hset : forall m k v, List.length (Validate.setResult m k v)
                                   <= S (List.length m)).
      { induction m as [|[k' v'] m IHm]; intros k v; simpl; [lia|].
        destruct (k' =? k)%string; simpl; [lia|]. specialize (IHm k v). lia. }
      assert (Hstep : List.length (Validate.results
                                     (Validate.validateStep parseRuleFile acc f))
                      <= S (List.length (Validate.results acc))).
      { unfold Validate.validateStep.
        destruct (valid (Validate.validateRuleFile parseRuleFile f)); simpl; apply Hset. }
      lia. }
    specialize (H files (Validate.mkSummary (List.length files) 0 0 [])).
    simpl in H. exact H.
Qed.

Lemma basename_join (dir f : string) :
  plainName f -> Path.basename (Path.join dir f) = f.
Proof.
  unfold plainName, Path.join. intros Hf.
  assert (Hcons : forall c p,
             Path.basename (String c p)
             = if JS.includes p "/" then Path.basename p
               else if Ascii.eqb c "/" then p else String c p) by reflexivity.
  induction dir as [|c dir IH].
  - change (EmptyString ++ "/" ++ f) with (String "/" f).
    now rewrite Hcons, Hf.
  - change (String c dir ++ "/" ++ f) with (String c (dir ++ "/" ++ f)).
    assert (Hin : JS.includes (dir ++ "/" ++ f) "/" = true)
      by (apply includes_iff; exists dir, f; reflexivity).
    now rewrite Hcons, Hin.
Qed.

Lemma setResult_fresh (m : list (string * ValidationResult)) (k : string)
    (v : ValidationResult) :
  ~ In k (List.map fst m) -> Validate.setResult m k v = (m ++ [(k, v)])%list.
Proof.
  induction m as [|[k' v'] m IH]; simpl; [reflexivity|].
  intros Hk. destruct (String.eqb_spec k' k) as [-> | Hne]; [tauto|].
  rewrite IH by tauto. reflexivity.
Qed.

Lemma results_fold (parseRuleFile : string -> ParseResult) (files : list string)
    (acc : Validate.Summary) :
  NoDup (List.map fst (Validate.results acc) ++ List.map Path.basename files) ->
  Validate.results (fold_left (Validate.validateStep parseRuleFile) files acc)
  = (Validate.results acc
     ++ List.map (fun file => (Path.basename file,
                               Validate.validateRuleFile parseRuleFile file)) files)%list.
Proof.
  revert acc. induction files as [|file files IH]; intros acc Hnd; simpl.
  - now rewrite app_nil_r.
  - simpl in Hnd.
    pose proof (NoDup_remove_1 _ _ _ Hnd) as Hrest.
    pose proof (NoDup_remove_2 _ _ _ Hnd) as Hnew.
    assert (Hfresh : ~ In (Path.basename file) (List.map fst (Validate.results acc))).
    { intros Hin. apply Hnew. apply in_or_app. now left. }
    assert (Hres : Validate.results (Validate.validateStep parseRuleFile acc file)
                   = (Validate.results acc
                      ++ [(Path.basename file,
                           Validate.validateRuleFile parseRuleFile file)])%list).
    { unfold Validate.validateStep.
      destruct (valid (Validate.validateRuleFile parseRuleFile file)); simpl;
        now apply setResult_fresh. }
    rewrite IH; rewrite Hres.
    + now rewrite <- app_assoc.
    + rewrite map_app, <- app_assoc. simpl.
      apply NoDup_Add with (a := Path.basename file)
                           (l := (List.map fst (Validate.results acc)
                                  ++ List.map Path.basename files)%list).
      * apply Add_app.
      * split; [exact Hrest | exact Hnew].
Qed.

(** The entries of the map, for names without a slash that are distinct. *)
Lemma results_of_listing (parseRuleFile : string -> ParseResult)
    (RULES_DIR : string) (listing : list string) :
  NoDup listing ->
  Forall plainName listing ->
  Validate.results (Validate.validateAllRules parseRuleFile RULES_DIR listing)
  = List.map (fun f => (f, Validate.validateRuleFile parseRuleFile (Path.join RULES_DIR f)))
      (filter isRuleFileName listing).
Proof.
  intros Hnd Hplain. unfold Validate.validateAllRules, Validate.ruleFiles.
  change (fun f => JS.endsWith f ".md" && negb (JS.startsWith f "_")) with isRuleFileName.
  assert (Hkept : Forall plainName (filter isRuleFileName listing)).
  { rewrite Forall_forall in *. intros f Hf. apply Hplain.
    now apply filter_In in Hf. }
  assert (Hbase : List.map Path.basename
                    (List.map (Path.join RULES_DIR) (filter isRuleFileName listing))
                  = filter isRuleFileName listing).
  { induction Hkept as [|f l Hf _ IH]; simpl; [reflexivity|].
    now rewrite basename_join, IH. }
  rewrite results_fold.
  - simpl. rewrite map_map. clear Hbase.
    induction Hkept as [|f l Hf _ IH]; simpl; [reflexivity|].
    now rewrite basename_join, IH.
  - simpl. rewrite Hbase. now apply NoDup_filter.
Qed.

(** The counters of the summary, over the paths of the processed files. *)
Lemma counters_of_listing (parseRuleFile : string -> ParseResult)
    (RULES_DIR : string) (listing : list string) :
  let s := Validate.validateAllRules parseRuleFile RULES_DIR listing in
  let files := Validate.ruleFiles RULES_DIR listing in
  Validate.totalFiles s = List.length (filter isRuleFileName listing) /\
  Validate.validFiles s
  = List.length (filter (fun f => valid (Validate.validateRuleFile parseRuleFile f)) files).
Proof.
  intros s files. unfold s, Validate.validateAllRules. fold files.
  destruct (validateStep_fold parseRuleFile files
              (Validate.mkSummary (List.length files) 0 0 [])) as (Ht & Hv & _).
  cbv zeta in Ht, Hv. simpl in Ht, Hv. rewrite Ht, Hv.
  split; [unfold files, Validate.ruleFiles; apply length_map | reflexivity].
Qed.

(** X5: for a directory listing (names without a slash, no name twice),
    the [results] map of [validateAllRules] holds one entry for each file
    that passes the name test, in the order of the listing, under the name
    of the file and with the validation result of its path; no key occurs
    twice and the map has [totalFiles] entries. *)
Theorem validateAllRules_results (parseRuleFile : string -> ParseResult)
    (RULES_DIR : string) (listing : list string) :
  NoDup listing ->
  Forall plainName listing ->
  let s := Validate.validateAllRules parseRuleFile RULES_DIR listing in
  Validate.results s
  = List.map (fun f => (f, Validate.validateRuleFile parseRuleFile (Path.join RULES_DIR f)))
      (filter isRuleFileName listing) /\
  NoDup (List.map fst (Validate.results s)) /\
  List.length (Validate.results s) = Validate.totalFiles s.
Proof.
  intros Hnd Hplain s.
  pose proof (results_of_listing parseRuleFile RULES_DIR listing Hnd Hplain) as Hres.
  destruct (counters_of_listing parseRuleFile RULES_DIR listing) as (Ht & _).
  cbv zeta in Ht. fold s in Hres, Ht.
  split; [exact Hres|]. rewrite Hres, Ht. split.
  - rewrite map_map. cbn [fst]. rewrite map_id. now apply NoDup_filter.
  - apply length_map.
Qed.

(** X5 at a directory with a template, a rule file and a text file. *)
Lemma validateAllRules_results_witness :
  List.map fst
    (Validate.results
       (Validate.validateAllRules
          (Sample.parserOf [("rules/query-star.md", parsed Sample.flagged)])
          Sample.dir ["_template.md"; "query-star.md"; "notes.txt"]))
  = ["query-star.md"].
Proof.
  assert (Hnd : NoDup ["_template.md"; "query-star.md"; "notes.txt"])
    by (repeat constructor; simpl; intuition discriminate).
  assert (Hplain : Forall plainName ["_template.md"; "query-star.md"; "notes.txt"])
    by (repeat constructor).
  pose proof (validateAllRules_results
                (Sample.parserOf [("rules/query-star.md", parsed Sample.flagged)])
                Sample.dir ["_template.md"; "query-star.md"; "notes.txt"] Hnd Hplain) as H.
  cbv zeta in H. destruct H as (Hres & _). rewrite Hres. reflexivity.
Defined.

(** ** The exit code of the validate command *)

Lemma errors_invalid (parseRuleFile : string -> ParseResult) (file : string) :
  errors (Validate.validateRuleFile parseRuleFile file) <> [] ->
  valid (Validate.validateRuleFile parseRuleFile file) = false.
Proof.
  intros He. destruct (valid (Validate.validateRuleFile parseRuleFile file)) eqn:Hv;
    [|reflexivity].
  destruct (valid_inv parseRuleFile file Hv) as (r & _ & _ & Hnil). contradiction.
Qed.

Lemma invalid_has_errors (parseRuleFile : string -> ParseResult) (file : string) :
  reportsFailure (parseRuleFile file) ->
  valid (Validate.validateRuleFile parseRuleFile file) = false ->
  errors (Validate.validateRuleFile parseRuleFile file) <> [].
Proof.
  intros Hrep.
  destruct (success (parseRuleFile file)) eqn:Hs;
    [destruct (rule (parseRuleFile file)) as [r|] eqn:Hr|].
  - rewrite (validateRuleFile_parsed _ _ r Hs Hr). simpl.
    destruct (parseErrors (parseRuleFile file) ++ ruleErrors r)%list; [discriminate|].
    intros _ H; discriminate H.
  - rewrite validateRuleFile_unparsed by auto. simpl. intros _. apply Hrep. auto.
  - rewrite validateRuleFile_unparsed by auto. simpl. intros _. apply Hrep. auto.
Qed.

Lemma existsb_mapped {A B : Type} (p : B -> bool) (g : A -> B) (l : list A) :
  existsb p (List.map g l) = existsb (fun x => p (g x)) l.
Proof. induction l as [|x l IH]; simpl; [reflexivity | now rewrite IH]. Qed.

Lemma existsb_same {A : Type} (p q : A -> bool) (l : list A) :
  (forall x, p x = q x) -> existsb p l = existsb q l.
Proof. intros H. induction l as [|x l IH]; simpl; [reflexivity | now rewrite H, IH]. Qed.

Lemma reportResult_fold (entries : list (string * ValidationResult))
    (acc : ValidateMain.Report) :
  ValidateMain.hasErrors (fold_left ValidateMain.reportResult entries acc)
  = ValidateMain.hasErrors acc
    || existsb (fun e => (negb (valid (snd e)) || (0 <? List.length (warnings (snd e))))
                         && (0 <? List.length (errors (snd e)))) entries.
Proof.
  revert acc. induction entries as [|e entries IH]; intros acc; simpl.
  - now rewrite orb_false_r.
  - rewrite IH. unfold ValidateMain.reportResult.
    destruct (negb (valid (snd e)) || (0 <? List.length (warnings (snd e)))); simpl.
    + now rewrite orb_assoc.
    + reflexivity.
Qed.

Lemma hasErrors_results (parseRuleFile : string -> ParseResult) (g : string -> string)
    (l : list string) (banner : list string) :
  ValidateMain.hasErrors
    (fold_left ValidateMain.reportResult
       (List.map (fun f => (f, Validate.validateRuleFile parseRuleFile (g f))) l)
       (ValidateMain.mkReport banner false))
  = existsb (fun f => 0 <? List.length
                             (errors (Validate.validateRuleFile parseRuleFile (g f)))) l.
Proof.
  rewrite reportResult_fold, existsb_mapped. cbn [ValidateMain.hasErrors orb].
  apply existsb_same. intros f. cbn [snd].
  destruct (errors (Validate.validateRuleFile parseRuleFile (g f))) as [|e es] eqn:E;
    [now rewrite andb_false_r|].
  assert (Hinv : valid (Validate.validateRuleFile parseRuleFile (g f)) = false)
    by (apply errors_invalid; rewrite E; discriminate).
  now rewrite Hinv.
Qed.

(** X6: for a directory listing (names without a slash, no name twice),
    the validate command exits with 1 exactly when some file that passes the
    name test has a validation result with an error, and with 0 otherwise (in
    particular when no file passes the name test); warnings alone never make
    it fail.  With a parser that reports an error whenever it fails, it exits
    with 1 exactly when [invalidFiles] is not zero. *)
Theorem main_exit_code (parseRuleFile : string -> ParseResult) (RULES_DIR : string)
    (listing : list string) :
  NoDup listing ->
  Forall plainName listing ->
  let code := ValidateMain.exitCode (ValidateMain.main parseRuleFile RULES_DIR listing) in
  let failing f :=
    errors (Validate.validateRuleFile parseRuleFile (Path.join RULES_DIR f)) <> [] in
  (code = 1 <-> exists f, In f listing /\ isRuleFileName f = true /\ failing f) /\
  (code = 0 \/ code = 1) /\
  ((forall file, reportsFailure (parseRuleFile file)) ->
   (code = 1 <->
    0 < Validate.invalidFiles (Validate.validateAllRules parseRuleFile RULES_DIR listing))).
Proof.
  intros Hnd Hplain code failing.
  pose (hasError := fun f =>
          0 <? List.length
                 (errors (Validate.validateRuleFile parseRuleFile (Path.join RULES_DIR f)))).
  assert (Hcode : code = if existsb hasError (filter isRuleFileName listing)
                         then 1 else 0).
  { unfold code, ValidateMain.main.
    destruct (counters_of_listing parseRuleFile RULES_DIR listing) as (Ht & _).
    cbv zeta in Ht. rewrite Ht.
    rewrite (results_of_listing parseRuleFile RULES_DIR listing Hnd Hplain).
    destruct (filter isRuleFileName listing) as [|f0 kept'] eqn:Ek; [reflexivity|].
    change (List.length (f0 :: kept') =? 0) with false. cbv iota zeta.
    rewrite (hasErrors_results parseRuleFile (Path.join RULES_DIR)).
    fold hasError.
    destruct (existsb hasError (f0 :: kept')); reflexivity. }
  assert (Hex : existsb hasError (filter isRuleFileName listing) = true <->
                exists f, In f listing /\ isRuleFileName f = true /\ failing f).
  { rewrite existsb_exists. unfold failing, hasError. split.
    - intros [f [Hin Hlen]]. apply filter_In in Hin. destruct Hin as [Hin Hname].
      exists f. repeat split; auto. intros Hnil. rewrite Hnil in Hlen. discriminate.
    - intros [f (Hin & Hname & Hfail)]. exists f. split; [now apply filter_In|].
      destruct (errors (Validate.validateRuleFile parseRuleFile (Path.join RULES_DIR f)));
        [contradiction | reflexivity]. }
  split; [|split].
  - rewrite <- Hex, Hcode.
    destruct (existsb hasError (filter isRuleFileName listing)); split; congruence.
  - rewrite Hcode.
    destruct (existsb hasError (filter isRuleFileName listing)); auto.
  - intros Hrep.
    destruct (validateStep_fold parseRuleFile (Validate.ruleFiles RULES_DIR listing)
                (Validate.mkSummary
                   (List.length (Validate.ruleFiles RULES_DIR listing)) 0 0 []))
      as (_ & _ & Hi).
    cbv zeta in Hi. simpl in Hi. unfold Validate.validateAllRules. rewrite Hi.
    rewrite Hcode.
    assert (Hiff : existsb hasError (filter isRuleFileName listing) = true <->
                   0 < List.length
                         (filter (fun f => negb (valid
                                     (Validate.validateRuleFile parseRuleFile f)))
                                 (Validate.ruleFiles RULES_DIR listing))).
    { unfold Validate.ruleFiles.
      change (fun f => JS.endsWith f ".md" && negb (JS.startsWith f "_"))
        with isRuleFileName.
      clear - Hrep. induction (filter isRuleFileName listing) as [|f kept IH]; simpl;
        [split; [discriminate | lia]|].
      rewrite orb_true_iff, IH. unfold hasError at 1.
      destruct (valid (Validate.validateRuleFile parseRuleFile (Path.join RULES_DIR f)))
        eqn:Hv; simpl.
      - destruct (valid_inv parseRuleFile _ Hv) as (_ & _ & _ & Hnil).
        rewrite Hnil. simpl. intuition discriminate.
      - pose proof (invalid_has_errors parseRuleFile _ (Hrep _) Hv) as Hne.
        destruct (errors (Validate.validateRuleFile parseRuleFile (Path.join RULES_DIR f)));
          [contradiction|]. simpl. split; [lia | auto]. }
    rewrite <- Hiff.
    destruct (existsb hasError (filter isRuleFileName listing)); split; congruence.
Qed.

(** X6 at a directory whose one rule file draws warnings only, and at one
    with a rule file of invalid impact. *)
Lemma main_exit_code_witness :
  ValidateMain.exitCode
    (ValidateMain.main (Sample.parserOf [("rules/query-star.md", parsed Sample.flagged)])
       Sample.dir ["_template.md"; "query-star.md"]) = 0 /\
  ValidateMain.exitCode
    (ValidateMain.main (Sample.parserOf [("rules/query-severe.md", parsed Sample.severe)])
       Sample.dir ["query-severe.md"]) = 1.
Proof.
  split; [reflexivity|].
  assert (Hnd : NoDup ["query-severe.md"]) by (repeat constructor; simpl; tauto).
  assert (Hplain : Forall plainName ["query-severe.md"]) by (repeat constructor).
  pose proof (main_exit_code
                (Sample.parserOf [("rules/query-severe.md", parsed Sample.severe)])
                Sample.dir ["query-severe.md"] Hnd Hplain) as H.
  cbv zeta in H. destruct H as [H _]. apply H.
  exists "query-severe.md". repeat split; [now left | discriminate].
Defined.

(** ** The rules the builder and the extractor work on *)

Lemma collect_validRules (parseRuleFile : string -> ParseResult) (files : list string)
    (rules : list Rule) :
  fold_left (Build.collectRule parseRuleFile) files rules
  = (rules ++ validRules parseRuleFile files)%list.
Proof.
  revert rules. induction files as [|file files IH]; intros rules; simpl.
  - now rewrite app_nil_r.
  - rewrite IH. unfold Build.collectRule.
    destruct (valid (Validate.validateRuleFile parseRuleFile file)) eqn:Hv; simpl;
      [|reflexivity].
    destruct (valid_inv parseRuleFile file Hv) as (r & Hs & Hr & _).
    rewrite Hs, Hr. simpl. now rewrite <- app_assoc.
Qed.

Lemma validRules_length (parseRuleFile : string -> ParseResult) (files : list string) :
  List.length (validRules parseRuleFile files)
  = List.length
      (filter (fun f => valid (Validate.validateRuleFile parseRuleFile f)) files).
Proof.
  induction files as [|file files IH]; simpl; [reflexivity|].
  rewrite length_app, IH.
  destruct (valid (Validate.validateRuleFile parseRuleFile file)) eqn:Hv; simpl;
    [|reflexivity].
  destruct (valid_inv parseRuleFile file Hv) as (r & _ & Hr & _). now rewrite Hr.
Qed.

(** X7: the builder collects, in the order of the directory listing, one
    rule for each file that passes the name test and validation, and no
    other; the count it reports is the [validFiles] count of
    [validateAllRules] on the same directory. *)
Theorem build_collects_valid_rules (parseRuleFile : string -> ParseResult)
    (RULES_DIR : string) (localeCompare : string -> string -> Z) (w : Build.World) :
  let files := Build.ruleFiles RULES_DIR (Build.listing w) in
  fold_left (Build.collectRule parseRuleFile) files [] = validRules parseRuleFile files /\
  Build.totalRules (Build.buildAgents parseRuleFile RULES_DIR localeCompare w)
  = Validate.validFiles
      (Validate.validateAllRules parseRuleFile RULES_DIR (Build.listing w)).
Proof.
  intros files. split; [apply collect_validRules|].
  unfold Build.buildAgents. cbn [Build.totalRules]. fold files.
  rewrite collect_validRules. simpl. rewrite validRules_length.
  destruct (counters_of_listing parseRuleFile RULES_DIR (Build.listing w)) as (_ & Hv).
  cbv zeta in Hv. now rewrite Hv.
Qed.

Lemma extractExamples_append (rid : string) (r : Rule) (l : list CodeExample)
    (acc : list TestCase) :
  fold_left (ExtractTests.extractExample rid r) l acc
  = (acc ++ fold_left (ExtractTests.extractExample rid r) l [])%list.
Proof.
  revert acc. induction l as [|e l IH]; intros acc; simpl.
  - now rewrite app_nil_r.
  - rewrite IH, (IH (ExtractTests.extractExample rid r [] e)).
    unfold ExtractTests.extractExample.
    destruct (JS.falsy (code e) || (String.length (JS.trim (code e)) =? 0));
      [reflexivity|].
    destruct (ExtractTests.classify (label e)); [|reflexivity].
    simpl. now rewrite <- app_assoc.
Qed.

Lemma countOf_set (m : JS.map nat) (k v s : nat) :
  ExtractTests.countOf (JS.set m k v) s = if k =? s then v else ExtractTests.countOf m s.
Proof.
  unfold ExtractTests.countOf. rewrite get_set. destruct (k =? s); reflexivity.
Qed.

Lemma extract_fold (parseRuleFile : string -> ParseResult) (files : list string)
    (st : ExtractTests.State) (before : list Rule) :
  (forall s, ExtractTests.countOf (ExtractTests.ruleCountBySection st) s
             = List.length (filter (fun x => section x =? s) before)) ->
  ExtractTests.testCases (fold_left (ExtractTests.extractFile parseRuleFile) files st)
  = (ExtractTests.testCases st
     ++ flat_map (fun p => casesOfRule (snd p) (fst p))
          (numbered before (validRules parseRuleFile files)))%list.
Proof.
  revert st before. induction files as [|file files IH]; intros st before Hcount; simpl.
  - now rewrite app_nil_r.
  - unfold ExtractTests.extractFile at 2.
    destruct (valid (Validate.validateRuleFile parseRuleFile file)) eqn:Hv; simpl.
    + destruct (valid_inv parseRuleFile file Hv) as (r & Hs & Hr & _).
      rewrite Hs, Hr. simpl.
      rewrite (IH _ (before ++ [r])%list).
      * simpl. rewrite extractExamples_append, <- app_assoc.
        unfold casesOfRule, fileOrderId. now rewrite Hcount.
      * intros s. cbn [ExtractTests.ruleCountBySection].
        rewrite countOf_set, filter_app, length_app. cbn [filter].
        destruct (section r =? s) eqn:E; rewrite !Hcount; simpl; [|lia].
        apply Nat.eqb_eq in E. subst. lia.
    + now apply IH.
Qed.

(** X8: the extractor numbers the rules of the valid files in the order
    of the directory listing: the rule that comes as the k-th of its section
    gets the id [<section>.<k>], and the test-case list is, rule after rule in
    that order, the test cases of the rule under that id. *)
Theorem extract_numbers_in_file_order (parseRuleFile : string -> ParseResult)
    (RULES_DIR : string) (listing : list string) :
  ExtractTests.extractTestCases parseRuleFile RULES_DIR listing
  = flat_map (fun p => casesOfRule (snd p) (fst p))
      (numbered [] (validRules parseRuleFile (ExtractTests.ruleFiles RULES_DIR listing))).
Proof.
  unfold ExtractTests.extractTestCases.
  rewrite (extract_fold parseRuleFile _ _ []); [reflexivity|].
  intros s. reflexivity.
Qed.

(** ** What a test case holds *)

Lemma orElse_nonempty (o : option string) (dflt : string) :
  dflt <> EmptyString -> JS.orElse o dflt <> EmptyString.
Proof.
  intros Hd. unfold JS.orElse, JS.falsy. destruct o as [s|]; [|exact Hd].
  destruct (String.eqb_spec s EmptyString); assumption.
Qed.

Lemma extractExamples_inv (rid : string) (r : Rule) (l : list CodeExample)
    (acc : list TestCase) (tc : TestCase) :
  In tc (fold_left (ExtractTests.extractExample rid r) l acc) ->
  In tc acc \/
  exists e ty,
    In e l /\ notBlank (code e) /\ ExtractTests.classify (label e) = Some ty /\
    tc = testCaseOf rid r e ty.
Proof.
  revert acc. induction l as [|e l IH]; intros acc; simpl; [auto|].
  intros H. apply IH in H. destruct H as [H | (e' & ty & He' & Hrest)].
  - unfold ExtractTests.extractExample in H.
    destruct (JS.falsy (code e) || (String.length (JS.trim (code e)) =? 0)) eqn:Hc;
      [auto|].
    destruct (ExtractTests.classify (label e)) as [ty|] eqn:Hty; [|auto].
    apply in_app_or in H. destruct H as [H | [<- | []]]; [auto|].
    right. exists e, ty. repeat split; auto. now apply notBlank_iff.
  - right. exists e', ty. tauto.
Qed.

Lemma numbered_in (before rules : list Rule) (p : Rule * string) :
  In p (numbered before rules) -> In (fst p) rules.
Proof.
  revert before. induction rules as [|r rules IH]; intros before; simpl; [auto|].
  intros [<- | H]; [now left | right; eauto].
Qed.

Lemma validRules_in (parseRuleFile : string -> ParseResult) (files : list string)
    (r : Rule) :
  In r (validRules parseRuleFile files) ->
  exists file, In file files /\
               valid (Validate.validateRuleFile parseRuleFile file) = true /\
               rule (parseRuleFile file) = Some r.
Proof.
  unfold validRules. rewrite in_flat_map. intros [file [Hin Hr]].
  exists file. split; [exact Hin|].
  destruct (valid (Validate.validateRuleFile parseRuleFile file)); [|destruct Hr].
  destruct (rule (parseRuleFile file)) as [r'|]; [|destruct Hr].
  destruct Hr as [-> | []]. auto.
Qed.

(** X9: every test case the extractor emits comes from an example of a
    rule of a file that passed validation: it carries the title of that rule
    and the code of that example, which is not blank, its type is the class of
    the label of the example (bad before good), and neither its language nor
    its description is empty.  An example with blank code or with a label of
    no class yields no test case. *)
Theorem test_cases_come_from_examples (parseRuleFile : string -> ParseResult)
    (RULES_DIR : string) (listing : list string) (tc : TestCase) :
  In tc (ExtractTests.extractTestCases parseRuleFile RULES_DIR listing) ->
  notBlank (tcCode tc) /\ tcLanguage tc <> EmptyString /\ tcDescription tc <> EmptyString /\
  exists f r e,
    In f listing /\ isRuleFileName f = true /\
    valid (Validate.validateRuleFile parseRuleFile (Path.join RULES_DIR f)) = true /\
    rule (parseRuleFile (Path.join RULES_DIR f)) = Some r /\
    In e (examples r) /\
    ruleTitle tc = title r /\ tcCode tc = code e /\
    ExtractTests.classify (label e) = Some (type tc).
Proof.
  unfold ExtractTests.extractTestCases.
  rewrite (extract_fold parseRuleFile _ _ []) by (intros s; reflexivity).
  cbn [ExtractTests.testCases app]. rewrite in_flat_map.
  intros [[r rid] [Hnum Hcase]]. simpl in Hcase.
  apply numbered_in in Hnum. simpl in Hnum.
  apply validRules_in in Hnum. destruct Hnum as (file & Hfile & Hv & Hr).
  unfold ExtractTests.ruleFiles in Hfile. apply in_map_iff in Hfile.
  destruct Hfile as (f & <- & Hf). apply filter_In in Hf. destruct Hf as [Hin Hname].
  apply extractExamples_inv in Hcase.
  destruct Hcase as [[] | (e & ty & He & Hcode & Hty & ->)].
  simpl. split; [exact Hcode|]. split; [|split].
  - apply orElse_nonempty. discriminate.
  - apply orElse_nonempty. intros H. apply (f_equal String.length) in H.
    rewrite !length_append in H. simpl in H. lia.
  - exists f, r, e. repeat split; auto.
Qed.

(** X9 at the directory of the two schema rules. *)
Lemma test_cases_come_from_examples_witness :
  let tc := mkTestCase "3.1" "Zebra Index" bad "SELECT * FROM a;" "sql"
              "Incorrect (N+1 query) example for Zebra Index" in
  notBlank (tcCode tc) /\ tcLanguage tc <> EmptyString.
Proof.
  assert (Hin : In (mkTestCase "3.1" "Zebra Index" bad "SELECT * FROM a;" "sql"
                      "Incorrect (N+1 query) example for Zebra Index")
                   (ExtractTests.extractTestCases Sample.schemaFiles Sample.dir
                      ["schema-a.md"; "schema-b.md"]))
    by (left; reflexivity).
  pose proof (test_cases_come_from_examples Sample.schemaFiles Sample.dir
                ["schema-a.md"; "schema-b.md"] _ Hin) as H.
  destruct H as (Hc & Hl & _). split; [exact Hc | exact Hl].
Defined.

(** ** When the two numberings agree *)

Lemma sortRules_sorted_fixed (cmp : string -> string -> Z) (l : list Rule) :
  StronglySorted (titleLe cmp) l -> Build.sortRules cmp l = l.
Proof.
  induction 1 as [|x l Hs IH Hx]; simpl; [reflexivity|].
  rewrite IH. destruct l as [|y l]; [reflexivity|]. simpl.
  inversion Hx as [|? ? Hxy _]; subst. unfold titleLe in Hxy.
  apply Z.leb_le in Hxy. now rewrite Hxy.
Qed.

Lemma nth_error_numbered (rules : list Rule) (before : list Rule) (i : nat) (r : Rule) :
  nth_error rules i = Some r ->
  nth_error (numbered before rules) i
  = Some (r, fileOrderId (before ++ firstn i rules) r).
Proof.
  revert before i. induction rules as [|x rules IH]; intros before i;
    destruct i as [|i]; simpl; try discriminate.
  - intros [= ->]. now rewrite app_nil_r.
  - intros H. rewrite (IH _ _ H). now rewrite <- app_assoc.
Qed.

Lemma nth_error_filter_firstn (p : Rule -> bool) (rules : list Rule) (i : nat) (r : Rule) :
  nth_error rules i = Some r -> p r = true ->
  nth_error (filter p rules) (List.length (filter p (firstn i rules))) = Some r.
Proof.
  revert i. induction rules as [|x rules IH]; intros i; destruct i as [|i]; simpl;
    try discriminate.
  - intros [= ->] Hp. now rewrite Hp.
  - intros H Hp. destruct (p x); simpl; now apply IH.
Qed.

(** X10: when the valid rules of a section come, in the order of the
    directory listing, already sorted by title, the builder gives each rule of
    that section the id the extractor gives it: the k-th rule of the section
    in file order is [<section>.<k>] in the document and in the test cases. *)
Theorem ids_agree_when_sorted (localeCompare : string -> string -> Z)
    (rules : list Rule) (i : nat) (r : Rule) :
  nth_error rules i = Some r ->
  StronglySorted (titleLe localeCompare)
    (filter (fun x => section x =? section r) rules) ->
  let rid := fileOrderId (firstn i rules) r in
  let k := List.length (filter (fun x => section x =? section r) (firstn i rules)) in
  nth_error (numbered [] rules) i = Some (r, rid) /\
  nth_error (Build.rulesOf (Build.groupAndAssign localeCompare rules) (section r)) k
  = Some (setId r rid).
Proof.
  intros Hi Hsorted rid k. split; [now apply nth_error_numbered|].
  rewrite rulesOf_groupAndAssign, (sortRules_sorted_fixed _ _ Hsorted).
  apply (nth_error_assignIds (section r) 0) with (j := k).
  apply nth_error_filter_firstn; [exact Hi | apply Nat.eqb_refl].
Qed.

(** X10 at the two schema rules with the files in title order. *)
Lemma ids_agree_when_sorted_witness :
  nth_error (numbered [] [Sample.avoid; Sample.zebra]) 1
  = Some (Sample.zebra, "3.2") /\
  nth_error (Build.rulesOf
               (Build.groupAndAssign codeCompare [Sample.avoid; Sample.zebra]) 3) 1
  = Some (setId Sample.zebra "3.2").
Proof.
  assert (Hsorted : StronglySorted (titleLe codeCompare)
                      (filter (fun x => section x =? section Sample.zebra)
                              [Sample.avoid; Sample.zebra])).
  { simpl. repeat constructor. unfold titleLe. simpl. discriminate. }
  exact (ids_agree_when_sorted codeCompare [Sample.avoid; Sample.zebra] 1 Sample.zebra
           eq_refl Hsorted).
Defined.

(** ** The ids of a build *)

Lemma split_at_dot (s t a b : string) :
  allChars JS.isDigit s = true -> allChars JS.isDigit t = true ->
  s ++ "." ++ a = t ++ "." ++ b -> s = t /\ a = b.
Proof.
  revert t. induction s as [|c s IH]; intros t Hs Ht H; destruct t as [|c' t];
    simpl in *.
  - injection H. auto.
  - injection H as Hc _. subst c'. discriminate Ht.
  - injection H as Hc _. subst c. discriminate Hs.
  - injection H as Hc H. subst c'.
    apply andb_true_iff in Hs, Ht.
    destruct (IH t (proj2 Hs) (proj2 Ht) H) as [-> ->]. auto.
Qed.

Lemma nth_error_assignIds_inv (n k : nat) (l : list Rule) (i : nat) (a : Rule) :
  nth_error (Build.assignIds n k l) i = Some a ->
  exists r, nth_error l i = Some r /\
            a = setId r (JS.ofNat n ++ "." ++ JS.ofNat (k + i + 1)).
Proof.
  revert k i. induction l as [|x l IH]; intros k i; destruct i as [|i]; simpl;
    try discriminate.
  - intros [= <-]. exists x. now rewrite Nat.add_0_r.
  - intros H. destruct (IH (S k) i H) as (r & Hr & ->). exists r. split; [exact Hr|].
    now replace (S k + i + 1) with (k + S i + 1) by lia.
Qed.

(** X11: after the builder has numbered the rules, the rule at position
    [i] of the list of section [n] belongs to section [n] and has the id
    [<n>.<i + 1>]; hence no two rules of a build share an id, within a section
    or across sections. *)
Theorem ids_are_unique (localeCompare : string -> string -> Z) (rules : list Rule)
    (n m i j : nat) (a b : Rule) :
  let rulesBySection := Build.groupAndAssign localeCompare rules in
  nth_error (Build.rulesOf rulesBySection n) i = Some a ->
  nth_error (Build.rulesOf rulesBySection m) j = Some b ->
  (id a = Some (JS.ofNat n ++ "." ++ JS.ofNat (i + 1)) /\ section a = n) /\
  (id a = id b -> n = m /\ i = j).
Proof.
  intros rulesBySection Ha Hb. unfold rulesBySection in *.
  rewrite rulesOf_groupAndAssign in Ha, Hb.
  apply nth_error_assignIds_inv in Ha, Hb.
  destruct Ha as (ra & Hra & ->). destruct Hb as (rb & Hrb & ->). simpl.
  split.
  - split; [reflexivity|].
    apply nth_error_In in Hra.
    apply (Permutation_in _ (sortRules_perm localeCompare _)) in Hra.
    apply filter_In in Hra. now apply Nat.eqb_eq.
  - intros [= H].
    apply split_at_dot in H; try apply ofNat_digits.
    destruct H as [Hn Hi]. apply ofNat_injective in Hn, Hi. lia.
Qed.

(** X11 at the two schema rules. *)
Lemma ids_are_unique_witness :
  id (setId Sample.avoid "3.1") = Some "3.1" /\ section (setId Sample.avoid "3.1") = 3.
Proof.
  assert (H0 : nth_error
                 (Build.rulesOf
                    (Build.groupAndAssign codeCompare [Sample.zebra; Sample.avoid]) 3) 0
               = Some (setId Sample.avoid "3.1")) by reflexivity.
  exact (proj1 (ids_are_unique codeCompare [Sample.zebra; Sample.avoid] 3 3 0 0 _ _ H0 H0)).
Defined.

(** ** The grouping of the rules *)

Lemma keys_set {V : Type} (m : JS.map V) (k : nat) (v : V) :
  List.map fst (JS.set m k v)
  = if existsb (fun e => fst e =? k) m then List.map fst m
    else (List.map fst m ++ [k])%list.
Proof.
  induction m as [|[k' v'] m IH]; simpl; [reflexivity|].
  destruct (k' =? k) eqn:E; simpl; [reflexivity|].
  rewrite IH. destruct (existsb (fun e => fst e =? k) m); reflexivity.
Qed.

Lemma in_set {V : Type} (m : JS.map V) (k : nat) (v : V) (e : nat * V) :
  In e (JS.set m k v) -> e = (k, v) \/ In e m.
Proof.
  induction m as [|[k' v'] m IH]; simpl.
  - intros [<- | []]. auto.
  - destruct (k' =? k) eqn:E; simpl.
    + apply Nat.eqb_eq in E. subst. intros [<- | H]; auto.
    + intros [<- | H]; auto. destruct (IH H); auto.
Qed.

Lemma flat_set (m : JS.map (list Rule)) (r : Rule) :
  Permutation (flat_map snd (Build.groupRule m r)) (flat_map snd m ++ [r]).
Proof.
  unfold Build.groupRule, Build.rulesOf.
  induction m as [|[k' v'] m IH]; simpl; [reflexivity|].
  destruct (k' =? section r) eqn:E; simpl.
  - rewrite <- !app_assoc. apply Permutation_app_head. apply Permutation_app_comm.
  - rewrite <- app_assoc. apply Permutation_app_head. exact IH.
Qed.

(** What the grouping loop keeps true of the map. *)
Lemma group_invariant (rules : list Rule) (m : JS.map (list Rule)) :
  NoDup (List.map fst m) ->
  (forall k l, In (k, l) m -> l <> [] /\ Forall (fun r => section r = k) l) ->
  let m' := fold_left Build.groupRule rules m in
  NoDup (List.map fst m') /\
  (forall k l, In (k, l) m' -> l <> [] /\ Forall (fun r => section r = k) l) /\
  Permutation (flat_map snd m') (flat_map snd m ++ rules).
Proof.
  revert m. induction rules as [|r rules IH]; intros m Hnd Hall; simpl.
  - rewrite app_nil_r. auto.
  - destruct (IH (Build.groupRule m r)) as (H1 & H2 & H3).
    + unfold Build.groupRule. rewrite keys_set.
      destruct (existsb (fun e => fst e =? section r) m) eqn:E; [exact Hnd|].
      apply NoDup_Add with (a := section r) (l := List.map fst m).
      * rewrite <- (app_nil_r (List.map fst m)) at 1. apply Add_app.
      * split; [exact Hnd|]. intros Hin. apply in_map_iff in Hin.
        destruct Hin as (e & He & Hin).
        assert (existsb (fun e => fst e =? section r) m = true)
          by (apply existsb_exists; exists e; split; [exact Hin | now apply Nat.eqb_eq]).
        congruence.
    + intros k l Hin. unfold Build.groupRule in Hin. apply in_set in Hin.
      destruct Hin as [[= -> ->] | Hin]; [|now apply Hall].
      split; [destruct (Build.rulesOf m (section r)); discriminate|].
      apply Forall_app. split; [|now repeat constructor].
      unfold Build.rulesOf. destruct (JS.get m (section r)) as [l|] eqn:G; [|constructor].
      assert (Hin : In (section r, l) m).
      { clear - G. induction m as [|[k' v'] m IHm]; simpl in *; [discriminate|].
        destruct (k' =? section r) eqn:E; [|right; auto].
        apply Nat.eqb_eq in E. injection G as ->. left. now subst. }
      now apply Hall.
    + split; [exact H1|]. split; [exact H2|].
      rewrite H3, (flat_set m r), <- app_assoc. reflexivity.
Qed.

Lemma eraseId_assignIds (n k : nat) (l : list Rule) :
  List.map eraseId (Build.assignIds n k l) = List.map eraseId l.
Proof.
  revert k. induction l as [|x l IH]; intros k; simpl; [reflexivity|].
  now rewrite IH.
Qed.

Lemma section_assignIds (n k s : nat) (l : list Rule) :
  Forall (fun r => section r = s) l ->
  Forall (fun r => section r = s) (Build.assignIds n k l).
Proof.
  intros H. revert k. induction H as [|x l Hx _ IH]; intros k; simpl; constructor; auto.
Qed.

(** X12: the map of the builder holds every collected rule once, under
    the number of its section: its keys are pairwise distinct, no list is
    empty, every rule of the list of a key has that section, and the lists
    together are, up to the ids, a rearrangement of the collected rules. *)
Theorem grouping_partitions_rules (localeCompare : string -> string -> Z)
    (rules : list Rule) :
  let rulesBySection := Build.groupAndAssign localeCompare rules in
  NoDup (List.map fst rulesBySection) /\
  (forall k l, In (k, l) rulesBySection -> l <> [] /\ Forall (fun r => section r = k) l) /\
  Permutation (List.map eraseId (flat_map snd rulesBySection)) (List.map eraseId rules).
Proof.
  intros rulesBySection. unfold rulesBySection, Build.groupAndAssign.
  destruct (group_invariant rules []) as (Hnd & Hall & Hperm);
    [constructor | intros k l [] |].
  cbv zeta in Hnd, Hall, Hperm. simpl in Hperm.
  set (m := fold_left Build.groupRule rules []) in *. clearbody m.
  split; [|split].
  - rewrite map_map.
    replace (List.map (fun x => fst (let '(k, v) := x in
                (k, Build.assignIds k 0 (Build.sortRules localeCompare v)))) m)
      with (List.map fst m); [exact Hnd|].
    apply map_ext. intros [k v]. reflexivity.
  - intros k l Hin. apply in_map_iff in Hin. destruct Hin as ([k' v] & [= <- <-] & Hin).
    destruct (Hall _ _ Hin) as [Hne Hsec]. split.
    + destruct v as [|x v]; [congruence|]. intros Hnil.
      apply (f_equal (@List.length Rule)) in Hnil.
      assert (Hlen : forall n i l', List.length (Build.assignIds n i l') = List.length l')
        by (intros n i l'; revert i; induction l' as [|y l' IHl]; intros i; simpl;
            [reflexivity | now rewrite IHl]).
      rewrite Hlen in Hnil.
      rewrite (Permutation_length (sortRules_perm localeCompare (x :: v))) in Hnil.
      discriminate Hnil.
    + apply section_assignIds.
      apply (Permutation_Forall (Permutation_sym (sortRules_perm localeCompare v))).
      exact Hsec.
  - rewrite <- Hperm. clear. induction m as [|[k v] m IH]; simpl; [reflexivity|].
    rewrite !map_app. apply Permutation_app; [|exact IH].
    rewrite eraseId_assignIds. apply Permutation_map. apply sortRules_perm.
Qed.

(** ** Which rules reach the document *)

Lemma flat_map_same {A B : Type} (f g : A -> list B) (l : list A) :
  (forall a, In a l -> f a = g a) -> flat_map f l = flat_map g l.
Proof.
  induction l as [|a l IH]; simpl; intros H; [reflexivity|].
  rewrite (H a) by auto. rewrite IH by auto. reflexivity.
Qed.

(** The rendering reads the map at the numbers of the section list only. *)
Lemma render_reads_listed (metadata : Metadata) (sections : list Section_)
    (m1 m2 : JS.map (list Rule)) :
  (forall s, In s sections -> Build.rulesOf m1 (number s) = Build.rulesOf m2 (number s)) ->
  Build.render metadata sections m1 = Build.render metadata sections m2.
Proof.
  intros H. unfold Build.render.
  rewrite (flat_map_same (Build.renderTocSection m1) (Build.renderTocSection m2)),
          (flat_map_same (Build.renderSection m1) (Build.renderSection m2)).
  - reflexivity.
  - intros s Hs. unfold Build.renderSection. now rewrite (H s Hs).
  - intros s Hs. unfold Build.renderTocSection. now rewrite (H s Hs).
Qed.

Lemma filter_listed (sections : list Section_) (n : nat) (rules : list Rule) :
  listed sections n = true ->
  filter (fun r => section r =? n) (filter (fun r => listed sections (section r)) rules)
  = filter (fun r => section r =? n) rules.
Proof.
  intros Hn. induction rules as [|r rules IH]; simpl; [reflexivity|].
  destruct (section r =? n) eqn:E.
  - apply Nat.eqb_eq in E. rewrite E, Hn. simpl.
    rewrite <- E at 1. rewrite Nat.eqb_refl. now rewrite IH.
  - destruct (listed sections (section r)); simpl; [rewrite E|]; exact IH.
Qed.

(** X13: the document shows the valid rules of the sections of the
    section list and no other: a valid rule whose section number is not in the
    list leaves no trace in the document (the document is the one built
    without it), although the reported count includes it. *)
Theorem unlisted_sections_are_dropped (parseRuleFile : string -> ParseResult)
    (RULES_DIR : string) (localeCompare : string -> string -> Z) (w : Build.World) :
  let out := Build.buildAgents parseRuleFile RULES_DIR localeCompare w in
  let sections := Build.parseSections (Build.sectionsFile w) in
  let rules := validRules parseRuleFile (Build.ruleFiles RULES_DIR (Build.listing w)) in
  let shown := filter (fun r => listed sections (section r)) rules in
  Build.document out
  = JS.join Build.nl
      (Build.render (Build.loadMetadata (Build.now w) (Build.metadataFile w)) sections
         (Build.groupAndAssign localeCompare shown)) /\
  Build.totalRules out = List.length rules.
Proof.
  intros out sections rules shown. unfold out, Build.buildAgents.
  rewrite collect_validRules, app_nil_l. cbn [Build.document Build.totalRules].
  fold rules. fold sections. split; [|reflexivity].
  f_equal. apply render_reads_listed. intros s Hs.
  rewrite !rulesOf_groupAndAssign. unfold shown. rewrite filter_listed; [reflexivity|].
  unfold listed. apply existsb_exists. exists s. split; [exact Hs | apply Nat.eqb_refl].
Qed.

(** A section file with sections 1 and 2 only: the two valid rules of section
    3 are counted and not shown. *)
Example unlisted_section_run :
  let out := Build.buildAgents Sample.schemaFiles Sample.dir codeCompare
               (Build.mkWorld ["schema-a.md"; "schema-b.md"] (Some Sample.twoSections)
                  None (Build.mkDate 2026 0)) in
  Build.totalRules out = 2 /\
  JS.includes (Build.document out) "Zebra Index" = false /\
  JS.includes (Build.document out) "Avoid Bloat" = false.
Proof. cbv zeta. repeat split; vm_compute; reflexivity. Qed.

Lemma sectionOfPrefix_listed (p : string) (n : nat) :
  Config.sectionOfPrefix p = Some n -> listed Build.getDefaultSections n = true.
Proof.
  unfold Config.sectionOfPrefix.
  destruct (find (fun e => (fst e =? p)%string) Config.SECTION_MAP) as [e|] eqn:E;
    [|discriminate].
  apply find_some in E. destruct E as [Hin _]. simpl. intros [= <-].
  simpl in Hin. repeat destruct Hin as [<- | Hin]; try reflexivity. destruct Hin.
Qed.

(** X14: the tables of [config.ts] and the default sections fit: every
    number [SECTION_MAP] gives is the number of a default section, every
    default section has the number its prefix maps to and an impact that is
    one of the six levels.  So with the default section list every valid rule
    whose section number comes from [SECTION_MAP] is shown, and under the id
    the builder gave it: a rule at position [i] of the sorted list of its
    section is stored with the id made of the section number, a dot and
    [i + 1], and the heading and the line of the table of contents that carry
    this id and the title of the rule are among the lines of the document. *)
Theorem default_sections_show_every_rule (localeCompare : string -> string -> Z)
    (metadata : Metadata) (rules : list Rule) :
  (forall p n, Config.sectionOfPrefix p = Some n ->
               listed Build.getDefaultSections n = true) /\
  Forall (fun s => Config.sectionOfPrefix (prefix s) = Some (number s) /\
                   Config.isImpactLevel (sectionImpact s) = true)
         Build.getDefaultSections /\
  (forall sections r,
      In r rules -> listed sections (section r) = true ->
      exists i,
        let ident := JS.ofNat (section r) ++ "." ++ JS.ofNat (i + 1) in
        let lines := Build.render metadata sections
                       (Build.groupAndAssign localeCompare rules) in
        nth_error (Build.sortRules localeCompare
                     (filter (fun x => section x =? section r) rules)) i = Some r /\
        nth_error (Build.rulesOf (Build.groupAndAssign localeCompare rules) (section r)) i
          = Some (setId r ident) /\
        In ("### " ++ ident ++ " " ++ title r ++ Build.nl) lines /\
        In ("   - " ++ ident ++ " [" ++ title r ++ "](#"
              ++ Build.toAnchor (ident ++ "-" ++ title r) ++ ")") lines).
Proof.
  split; [exact sectionOfPrefix_listed|]. split; [repeat constructor|].
  intros sections r Hr Hlisted.
  unfold listed in Hlisted. apply existsb_exists in Hlisted.
  destruct Hlisted as (s & Hs & Hnum). apply Nat.eqb_eq in Hnum.
  assert (Hsorted : In r (Build.sortRules localeCompare
                            (filter (fun x => section x =? section r) rules))).
  { apply (Permutation_in _ (Permutation_sym (sortRules_perm localeCompare _))).
    apply filter_In. split; [exact Hr | apply Nat.eqb_refl]. }
  apply In_nth_error in Hsorted. destruct Hsorted as [i Hi].
  exists i. cbv zeta.
  pose proof (nth_error_assignIds (section r) 0 _ i r Hi) as Hid.
  rewrite <- rulesOf_groupAndAssign in Hid. rewrite Nat.add_0_l in Hid.
  split; [exact Hi|]. split; [exact Hid|].
  apply nth_error_In in Hid.
  split.
  - unfold Build.render. apply in_or_app. right. apply in_or_app. right.
    apply in_or_app. right. apply in_or_app. left.
    apply in_flat_map. exists s. split; [exact Hs|].
    unfold Build.renderSection. rewrite Hnum.
    apply in_or_app. right. apply in_or_app. right.
    apply in_flat_map. eexists. split; [exact Hid|].
    unfold Build.renderRule. apply in_or_app. left. left. reflexivity.
  - unfold Build.render. apply in_or_app. right. apply in_or_app. left.
    apply in_flat_map. exists s. split; [exact Hs|].
    unfold Build.renderTocSection. rewrite Hnum.
    apply in_or_app. right. apply in_or_app. left.
    apply in_map_iff. eexists. split; [|exact Hid]. reflexivity.
Qed.

(** ** The order of the files *)

Lemma filter_perm {A : Type} (p : A -> bool) (l1 l2 : list A) :
  Permutation l1 l2 -> Permutation (filter p l1) (filter p l2).
Proof.
  induction 1 as [|x l1 l2 _ IH|x y l|l1 l2 l3 _ IH1 _ IH2]; simpl.
  - constructor.
  - destruct (p x); [now constructor | exact IH].
  - destruct (p x), (p y); try reflexivity. apply perm_swap.
  - now transitivity (filter p l2).
Qed.

Lemma sorted_perm_unique {A : Type} (R : A -> A -> Prop) (l1 l2 : list A) :
  (forall a b, In a l1 -> In b l1 -> R a b -> R b a -> a = b) ->
  StronglySorted R l1 -> StronglySorted R l2 -> Permutation l1 l2 -> l1 = l2.
Proof.
  revert l2. induction l1 as [|a l1 IH]; intros l2 Hanti Hs1 Hs2 Hperm.
  - apply Permutation_nil in Hperm. now subst.
  - destruct l2 as [|b l2]; [apply Permutation_sym, Permutation_nil in Hperm; discriminate|].
    inversion Hs1 as [|? ? Hs1' Ha]; subst. inversion Hs2 as [|? ? Hs2' Hb]; subst.
    assert (Hab : a = b).
    { assert (Hin_a : In a (b :: l2)) by (apply (Permutation_in _ Hperm); now left).
      assert (Hin_b : In b (a :: l1))
        by (apply (Permutation_in _ (Permutation_sym Hperm)); now left).
      destruct Hin_a as [-> | Hin_a]; [reflexivity|].
      destruct Hin_b as [-> | Hin_b]; [reflexivity|].
      rewrite Forall_forall in Ha, Hb.
      apply Hanti; [now left | now right | now apply Ha | now apply Hb]. }
    subst b. f_equal. apply IH; auto.
    + intros x y Hx Hy. apply Hanti; now right.
    + now apply Permutation_cons_inv in Hperm.
Qed.

(** X15: when no two valid rules of one section have titles that compare
    equal, the output of the build does not depend on the order in which the
    directory lists the files: the document and the count are the same for
    every rearrangement of the listing. *)
Theorem build_ignores_file_order (parseRuleFile : string -> ParseResult)
    (RULES_DIR : string) (localeCompare : string -> string -> Z)
    (w : Build.World) (listing' : list string) :
  Consistent localeCompare ->
  Permutation (Build.listing w) listing' ->
  distinctTitles localeCompare
    (validRules parseRuleFile (Build.ruleFiles RULES_DIR (Build.listing w))) ->
  Build.buildAgents parseRuleFile RULES_DIR localeCompare w
  = Build.buildAgents parseRuleFile RULES_DIR localeCompare
      (Build.mkWorld listing' (Build.sectionsFile w) (Build.metadataFile w) (Build.now w)).
Proof.
  intros Hc Hperm Hdist. unfold Build.buildAgents.
  cbn [Build.listing Build.sectionsFile Build.metadataFile Build.now].
  rewrite !collect_validRules, !app_nil_l.
  set (rules1 := validRules parseRuleFile (Build.ruleFiles RULES_DIR (Build.listing w))) in *.
  set (rules2 := validRules parseRuleFile (Build.ruleFiles RULES_DIR listing')).
  assert (Hrules : Permutation rules1 rules2).
  { unfold rules1, rules2, validRules, Build.ruleFiles.
    apply Permutation_flat_map. apply Permutation_map. now apply filter_perm. }
  f_equal; [|now apply Permutation_length].
  f_equal. apply render_reads_listed. intros s _.
  rewrite !rulesOf_groupAndAssign. f_equal.
  apply (sorted_perm_unique (titleLe localeCompare)).
  - intros a b Ha Hb Hab Hba.
    apply (Permutation_in _ (sortRules_perm localeCompare _)) in Ha, Hb.
    apply filter_In in Ha, Hb. destruct Ha as [Ha Hsa], Hb as [Hb Hsb].
    apply Nat.eqb_eq in Hsa, Hsb.
    apply Hdist; [exact Ha | exact Hb | congruence|].
    unfold titleLe in *.
    pose proof (cmp_antisym localeCompare Hc (title a) (title b)). lia.
  - now apply sortRules_sorted.
  - now apply sortRules_sorted.
  - rewrite (sortRules_perm localeCompare _), (sortRules_perm localeCompare _).
    now apply filter_perm.
Qed.

(** X15 at the two schema rules, listed in either order. *)
Lemma build_ignores_file_order_witness :
  Build.buildAgents Sample.schemaFiles Sample.dir codeCompare
    (Build.mkWorld ["schema-a.md"; "schema-b.md"] None None (Build.mkDate 2026 0))
  = Build.buildAgents Sample.schemaFiles Sample.dir codeCompare
      (Build.mkWorld ["schema-b.md"; "schema-a.md"] None None (Build.mkDate 2026 0)).
Proof.
  apply (build_ignores_file_order Sample.schemaFiles Sample.dir codeCompare
           (Build.mkWorld ["schema-a.md"; "schema-b.md"] None None (Build.mkDate 2026 0))
           ["schema-b.md"; "schema-a.md"] codeCompare_consistent).
  - apply perm_swap.
  - intros a b [<- | [<- | []]] [<- | [<- | []]] _ H;
      try reflexivity; vm_compute in H; discriminate H.
Defined.

(** ** The files an entry point processes *)

(** C9: in validate-all, build and extract alike, an entry of the rules
    directory is processed if and only if its name ends with [.md] and does
    not start with an underscore.  The three file lists hold exactly these
    entries.  Validate-all counts them, validates each one (the counters of
    valid and invalid files are those of their paths) and, for a listing of
    distinct names without a slash, records one result for each of them and
    for no other entry.  Build and extract work on the rules of the processed
    files that pass validation, and on nothing else: the document, the rule
    count and the test cases are those of these rules.  The other entries are
    ignored without a trace: each entry point yields what it yields on the
    directory without them. *)
Theorem C9_rule_file_names (parseRuleFile : string -> ParseResult) (RULES_DIR : string)
    (localeCompare : string -> string -> Z) (w : Build.World) (f : string) :
  let listing := Build.listing w in
  let processed :=
    In f listing /\ (exists stem, f = stem ++ ".md") /\ ~ (exists rest, f = "_" ++ rest) in
  let kept := List.filter isRuleFileName listing in
  let paths := List.map (Path.join RULES_DIR) kept in
  let check := Validate.validateRuleFile parseRuleFile in
  let summary := Validate.validateAllRules parseRuleFile RULES_DIR listing in
  let rules := validRules parseRuleFile paths in
  (In (Path.join RULES_DIR f) (Validate.ruleFiles RULES_DIR listing) <-> processed) /\
  (In (Path.join RULES_DIR f) (ExtractTests.ruleFiles RULES_DIR listing) <-> processed) /\
  (In (Path.join RULES_DIR f) (Build.ruleFiles RULES_DIR listing) <-> processed) /\
  Validate.validateAllRules parseRuleFile RULES_DIR listing
    = Validate.validateAllRules parseRuleFile RULES_DIR kept /\
  ExtractTests.extractTestCases parseRuleFile RULES_DIR listing
    = ExtractTests.extractTestCases parseRuleFile RULES_DIR kept /\
  Build.buildAgents parseRuleFile RULES_DIR localeCompare w
    = Build.buildAgents parseRuleFile RULES_DIR localeCompare
        (Build.mkWorld kept (Build.sectionsFile w) (Build.metadataFile w) (Build.now w)) /\
  (Validate.totalFiles summary = List.length kept /\
   Validate.validFiles summary
   = List.length (filter (fun p => valid (check p)) paths) /\
   Validate.invalidFiles summary
   = List.length (filter (fun p => negb (valid (check p))) paths) /\
   (NoDup listing -> Forall plainName listing ->
    Validate.results summary
    = List.map (fun g => (g, check (Path.join RULES_DIR g))) kept /\
    (In f (List.map fst (Validate.results summary)) <-> processed))) /\
  (forall r,
      In r rules <->
      exists g, In g listing /\ isRuleFileName g = true /\
                valid (check (Path.join RULES_DIR g)) = true /\
                rule (parseRuleFile (Path.join RULES_DIR g)) = Some r) /\
  Build.buildAgents parseRuleFile RULES_DIR localeCompare w
    = Build.mkOutput
        (JS.join Build.nl
           (Build.render (Build.loadMetadata (Build.now w) (Build.metadataFile w))
              (Build.parseSections (Build.sectionsFile w))
              (Build.groupAndAssign localeCompare rules)))
        (List.length rules) /\
  ExtractTests.extractTestCases parseRuleFile RULES_DIR listing
    = flat_map (fun p => casesOfRule (snd p) (fst p)) (numbered [] rules).
Proof.
  intros listing processed kept paths check summary rules.
  assert (Hv : Validate.ruleFiles RULES_DIR kept = Validate.ruleFiles RULES_DIR listing)
    by (unfold Validate.ruleFiles, kept, isRuleFileName; now rewrite filter_idempotent).
  assert (He : ExtractTests.ruleFiles RULES_DIR kept = ExtractTests.ruleFiles RULES_DIR listing)
    by (unfold ExtractTests.ruleFiles, kept, isRuleFileName; now rewrite filter_idempotent).
  assert (Hb : Build.ruleFiles RULES_DIR kept = Build.ruleFiles RULES_DIR listing)
    by (unfold Build.ruleFiles, kept, isRuleFileName; now rewrite filter_idempotent).
  assert (Hprocessed : In f kept <-> processed).
  { unfold kept, processed. rewrite filter_In, isRuleFileName_iff. reflexivity. }
  split; [exact (in_joined_filter RULES_DIR listing f)|].
  split; [exact (in_joined_filter RULES_DIR listing f)|].
  split; [exact (in_joined_filter RULES_DIR listing f)|].
  split; [unfold Validate.validateAllRules; now rewrite Hv|].
  split; [unfold ExtractTests.extractTestCases; now rewrite He|].
  split.
  { unfold Build.buildAgents.
    cbn [Build.listing Build.sectionsFile Build.metadataFile Build.now].
    fold listing. now rewrite Hb. }
  split; [|split; [|split]].
  - destruct (validateStep_fold parseRuleFile paths
                (Validate.mkSummary (List.length paths) 0 0 [])) as (Ht & Hvalid & Hinvalid).
    cbv zeta in Ht, Hvalid, Hinvalid.
    cbn [Validate.totalFiles Validate.validFiles Validate.invalidFiles Nat.add]
      in Ht, Hvalid, Hinvalid.
    split; [|split; [exact Hvalid | split; [exact Hinvalid|]]].
    + transitivity (List.length paths); [exact Ht | apply length_map].
    + intros Hnd Hplain.
      pose proof (results_of_listing parseRuleFile RULES_DIR listing Hnd Hplain) as Hres.
      split; [exact Hres|].
      unfold summary. rewrite Hres, map_map. cbn [fst]. rewrite map_id.
      exact Hprocessed.
  - intros r. unfold rules, validRules. rewrite in_flat_map. split.
    + intros (path & Hpath & Hr). unfold paths in Hpath.
      apply in_map_iff in Hpath. destruct Hpath as (g & <- & Hg).
      apply filter_In in Hg. destruct Hg as [Hg Hname].
      exists g. fold check in Hr.
      destruct (valid (check (Path.join RULES_DIR g))); [|destruct Hr].
      destruct (rule (parseRuleFile (Path.join RULES_DIR g))) as [r'|]; [|destruct Hr].
      destruct Hr as [-> | []]. auto.
    + intros (g & Hg & Hname & Hvalid & Hrule).
      exists (Path.join RULES_DIR g). split.
      * apply in_map. apply filter_In. auto.
      * fold check. rewrite Hvalid, Hrule. now left.
  - unfold Build.buildAgents. rewrite collect_validRules, app_nil_l. reflexivity.
  - unfold ExtractTests.extractTestCases.
    rewrite (extract_fold parseRuleFile _ _ []); [reflexivity|].
    intros s. reflexivity.
Qed.

(** A directory with a template, a text file and one rule file: only the
    rule file is validated and recorded. *)
Lemma C9_rule_file_names_witness :
  let listing := ["_template.md"; "notes.txt"; "schema-a.md"] in
  let summary := Validate.validateAllRules mixedFiles Sample.dir listing in
  Validate.results summary
  = [("schema-a.md", Validate.validateRuleFile mixedFiles "rules/schema-a.md")] /\
  Validate.totalFiles summary = 1 /\
  (In "schema-a.md" (List.map fst (Validate.results summary)) <->
   In "schema-a.md" listing /\ (exists stem, "schema-a.md" = stem ++ ".md") /\
   ~ (exists rest, "schema-a.md" = "_" ++ rest)).
Proof.
  intros listing summary.
  pose proof (C9_rule_file_names mixedFiles Sample.dir codeCompare
                (Build.mkWorld listing None None (Build.mkDate 2026 0)) "schema-a.md") as H.
  cbv zeta in H.
  destruct H as (_ & _ & _ & _ & _ & _ & (Htotal & _ & _ & Hresults) & _).
  assert (Hnd : NoDup listing).
  { unfold listing. repeat (constructor; [simpl; intuition discriminate|]). constructor. }
  assert (Hplain : Forall plainName listing).
  { unfold listing. repeat (constructor; [reflexivity|]). constructor. }
  destruct (Hresults Hnd Hplain) as [Hres Hin].
  split; [exact Hres|]. split; [exact Htotal | exact Hin].
Defined.

(** The same directory through build and extract: one rule, numbered 3.1,
    and nothing of the rule behind the two other entries. *)
Example mixed_directory_run :
  let listing := ["_template.md"; "notes.txt"; "schema-a.md"] in
  let out := Build.buildAgents mixedFiles Sample.dir codeCompare
               (Build.mkWorld listing None None (Build.mkDate 2026 0)) in
  Build.totalRules out = 1 /\
  JS.includes (Build.document out) "### 3.1 Zebra Index" = true /\
  JS.includes (Build.document out) "Avoid Bloat" = false /\
  List.length (ExtractTests.extractTestCases mixedFiles Sample.dir listing) = 2.
Proof. cbv zeta. repeat split; vm_compute; reflexivity. Qed.
